(** * VPC endpoint reconciliation hooks (pkg/controller/ec2/vpcendpoint)

    A shallow embedding of the resource-specific hooks that the generated
    controller of the [VPCEndpoint] managed resource calls: [preCreate],
    [postCreate], [postObserve], [isUpToDate], [filterList] and the list
    helpers they rely on.

    The repository carries two revisions of the hook file.  The later one
    (the one that contains the drift detection, the connection details and
    the list helpers) is embedded at top level; the earlier one, [setup.go],
    whose hooks are shorter, is embedded in [Module SetupGo].

    Conventions of the embedding.
    - A Go [*string] is an [option string]; [aws.StringValue] reads it.
    - A Go slice whose nil-ness the code observes is a [slice] (an optional
      list); a slice that is only ranged over, measured, indexed or
      appended to is a [list].
    - Pointers to SDK structures stored in slices are taken to be non-nil,
      as the SDK produces them.
    - A hook that mutates the resource it receives returns the new
      resource next to its Go results.
    - A run-time panic (index out of range, nil dereference) is the
      outcome [Panicked]. *)

From Stdlib Require Import Ascii String.
From Stdlib Require Strings.Byte.
From stdpp Require Import base option list gmap strings.

Set Default Proof Using "Type".
Open Scope string_scope.
Open Scope list_scope.

(** ** Go values *)

(** Result of running a Go function body: it returns, or it panics. *)
Inductive outcome (A : Type) : Type :=
  | Returned (a : A)
  | Panicked.
Arguments Returned {A} a.
Arguments Panicked {A}.

#[global] Instance outcome_ret : MRet outcome := fun _ a => Returned a.

#[global] Instance outcome_bind : MBind outcome := fun _ _ k m =>
  match m with
  | Returned a => k a
  | Panicked => Panicked
  end.

(** [xs[0]] on a slice. *)
Definition index0 {A} (xs : list A) : outcome A :=
  match xs with
  | [] => Panicked
  | x :: _ => Returned x
  end.

(** [*p] on a pointer. *)
Definition deref {A} (p : option A) : outcome A :=
  match p with
  | Some a => Returned a
  | None => Panicked
  end.

(** A slice that may be nil.  [None] is the nil slice, [Some []] an empty
    slice that is not nil. *)
Definition slice (A : Type) : Type := option (list A).

Definition elems {A} (s : slice A) : list A := default [] s.

Definition len {A} (s : slice A) : nat := length (elems s).

Definition is_nil {A} (s : slice A) : bool :=
  match s with
  | None => true
  | Some _ => false
  end.

(** A Go [error] value; [None] is [nil]. *)
Definition error : Type := string.

(** [aws.StringValue] and [awsclients.StringValue]: the pointed-to string,
    or the empty string for a nil pointer. *)
Definition StringValue (p : option string) : string := default "" p.

(** ** Collaborators: crossplane-runtime *)

(** [xpv1]: conditions of a managed resource.  The transition time of a
    condition is read from the clock and is left out; [Equal] ignores it
    as well. *)
Module xpv1.

Record Condition : Type := mkCondition {
  Type_ : string;
  Status : string;
  Reason : string;
  Message : string
}.

Definition TypeReady : string := "Ready".
Definition TypeSynced : string := "Synced".
Definition ConditionTrue : string := "True".
Definition ConditionFalse : string := "False".
Definition ConditionUnknown : string := "Unknown".
Definition ReasonAvailable : string := "Available".
Definition ReasonUnavailable : string := "Unavailable".
Definition ReasonCreating : string := "Creating".
Definition ReasonDeleting : string := "Deleting".

Definition Creating : Condition := mkCondition TypeReady ConditionFalse ReasonCreating "".
Definition Deleting : Condition := mkCondition TypeReady ConditionFalse ReasonDeleting "".
Definition Available : Condition := mkCondition TypeReady ConditionTrue ReasonAvailable "".
Definition Unavailable : Condition := mkCondition TypeReady ConditionFalse ReasonUnavailable "".

Definition ResourceCredentialsSecretEndpointKey : string := "endpoint".

Definition sameType (c new : Condition) : bool := String.eqb (Type_ c) (Type_ new).

(** [ConditionedStatus.SetConditions] for one condition: every existing
    condition of the same type becomes the new one; without one, the new
    condition is appended. *)
Definition setCondition (new : Condition) (conds : list Condition) : list Condition :=
  if existsb (fun c => sameType c new) conds
  then map (fun c => if sameType c new then new else c) conds
  else conds ++ [new].

Definition SetConditions (c : list Condition) (conds : list Condition) : list Condition :=
  fold_left (fun acc new => setCondition new acc) c conds.

(** [ConditionedStatus.GetCondition]: the first condition of the type,
    or an unknown one. *)
Definition GetCondition (ct : string) (conds : list Condition) : Condition :=
  match List.find (fun c => String.eqb (Type_ c) ct) conds with
  | Some c => c
  | None => mkCondition ct ConditionUnknown "" ""
  end.

End xpv1.

(** [managed]: what the hooks hand back to the generic reconciler. *)
Module managed.

Record ExternalObservation : Type := mkExternalObservation {
  ResourceExists : bool;
  ResourceUpToDate : bool;
  ResourceLateInitialized : bool;
  ConnectionDetails : gmap string (list Byte.byte)
}.

(** [managed.ExternalObservation{}] *)
Definition zeroObservation : ExternalObservation :=
  mkExternalObservation false false false ∅.

Record ExternalCreation : Type := mkExternalCreation {
  ExternalNameAssigned : bool;
  CreationDetails : gmap string (list Byte.byte)
}.

(** [managed.ExternalCreation{}] *)
Definition zeroCreation : ExternalCreation := mkExternalCreation false ∅.

End managed.

(** ** Collaborators: the AWS SDK

    The structures of [service/ec2] that the hooks read and write, with
    the fields they touch. *)

Definition Time : Type := Z.

Module Tag.
Record t : Type := mk { Key : option string; Value : option string }.
End Tag.

Module TagSpecification.
Record t : Type := mk { ResourceType : option string; Tags : list Tag.t }.
End TagSpecification.

Module DnsEntry.
Record t : Type := mk { DnsName : option string; HostedZoneId : option string }.
End DnsEntry.

Module SecurityGroupIdentifier.
Record t : Type := mk { GroupId : option string; GroupName : option string }.
End SecurityGroupIdentifier.

(** [ec2.VpcEndpoint] *)
Module VpcEndpoint.
Record t : Type := mk {
  VpcEndpointId : option string;
  State : option string;
  SubnetIds : slice (option string);
  RouteTableIds : slice (option string);
  Groups : list SecurityGroupIdentifier.t;
  DnsEntries : list DnsEntry.t;
  PolicyDocument : option string;
  CreationTimestamp : option Time
}.
End VpcEndpoint.

Module DescribeVpcEndpointsOutput.
Record t : Type := mk { VpcEndpoints : list VpcEndpoint.t }.
End DescribeVpcEndpointsOutput.

Module CreateVpcEndpointInput.
Record t : Type := mk {
  SecurityGroupIds : slice (option string);
  RouteTableIds : slice (option string);
  SubnetIds : slice (option string);
  TagSpecifications : list TagSpecification.t
}.
End CreateVpcEndpointInput.

Module CreateVpcEndpointOutput.
Record t : Type := mk { VpcEndpoint : option VpcEndpoint.t }.
End CreateVpcEndpointOutput.

(** ** The managed resource (apis/ec2/v1alpha1)

    The hook file and the generated accessors of the resource are among
    the sources; the declarations of its types are not.  Each record below
    has the fields that the hooks and the accessors read and write. *)

(** Modelled from the spec: the type [DNSEntry], a name and a hosted zone
    identifier, as [generateVPCEndpointSDK] fills it. *)
Module DNSEntry.
Record t : Type := mk { DNSName : option string; HostedZoneID : option string }.
End DNSEntry.

(** Modelled from the spec: the type [VPCEndpoint_SDK], the mirror of the
    observed endpoint kept in the status, with the three fields that
    [generateVPCEndpointSDK] sets. *)
Module VPCEndpoint_SDK.
Record t : Type := mk {
  CreationTimestamp : option Time;
  DNSEntries : list DNSEntry.t;
  State : option string
}.
End VPCEndpoint_SDK.

(** Modelled from the spec: the type of [cr.Spec.ForProvider], the
    declared lists of identifiers and the optional policy document. *)
Module VPCEndpointParameters.
Record t : Type := mk {
  SecurityGroupIDs : slice (option string);
  RouteTableIDs : slice (option string);
  SubnetIDs : slice (option string);
  PolicyDocument : option string
}.
End VPCEndpointParameters.

(** Modelled from the spec: the type [VPCEndpoint] of the resource, with
    its annotations, [Spec.ForProvider], [Status.AtProvider.VPCEndpoint]
    and [Status.Conditions]. *)
Module VPCEndpoint.
Record t : Type := mk {
  Annotations : gmap string string;
  ForProvider : VPCEndpointParameters.t;
  AtProvider : option VPCEndpoint_SDK.t;
  Conditions : list xpv1.Condition
}.

(** [mg.Status.GetCondition(ct)] *)
Definition GetCondition (mg : t) (ct : string) : xpv1.Condition :=
  xpv1.GetCondition ct (Conditions mg).

(** [mg.Status.SetConditions(c...)] *)
Definition SetConditions (mg : t) (c : list xpv1.Condition) : t :=
  mk (Annotations mg) (ForProvider mg) (AtProvider mg)
     (xpv1.SetConditions c (Conditions mg)).

Definition setAtProvider (mg : t) (sdk : VPCEndpoint_SDK.t) : t :=
  mk (Annotations mg) (ForProvider mg) (Some sdk) (Conditions mg).

Definition setAnnotations (mg : t) (a : gmap string string) : t :=
  mk a (ForProvider mg) (AtProvider mg) (Conditions mg).
End VPCEndpoint.

(** [meta]: the external name lives in an annotation. *)
Module meta.

Definition AnnotationKeyExternalName : string := "crossplane.io/external-name".

Definition GetExternalName (o : VPCEndpoint.t) : string :=
  default "" (VPCEndpoint.Annotations o !! AnnotationKeyExternalName).

Definition SetExternalName (o : VPCEndpoint.t) (name : string) : VPCEndpoint.t :=
  VPCEndpoint.setAnnotations o
    (<[AnnotationKeyExternalName := name]> (VPCEndpoint.Annotations o)).

End meta.

(** ** Collaborators: jsondiff

    [github.com/nsf/jsondiff]: the verdicts of [jsondiff.Compare].  The
    function itself is a parameter of the drift detection below. *)
Module jsondiff.

Inductive Difference : Type :=
  | FullMatch
  | SupersetMatch
  | NoMatch
  | FirstArgIsInvalidJson
  | SecondArgIsInvalidJson
  | BothArgsAreInvalidJson.

Definition eqb (a b : Difference) : bool :=
  match a, b with
  | FullMatch, FullMatch
  | SupersetMatch, SupersetMatch
  | NoMatch, NoMatch
  | FirstArgIsInvalidJson, FirstArgIsInvalidJson
  | SecondArgIsInvalidJson, SecondArgIsInvalidJson
  | BothArgsAreInvalidJson, BothArgsAreInvalidJson => true
  | _, _ => false
  end.

(** The verdicts that report an argument the decoder rejected. *)
Definition invalidJson (d : Difference) : bool :=
  match d with
  | FirstArgIsInvalidJson | SecondArgIsInvalidJson | BothArgsAreInvalidJson => true
  | _ => false
  end.

End jsondiff.

(** ** Helpers of the hook file *)

(** Inner loop of the labelled [compare] loops: does some element of
    [listB] carry the same string as [elemA]?  It is the condition under
    which [continue compare] is taken. *)
Fixpoint foundIn (elemA : option string) (listB : list (option string)) : bool :=
  match listB with
  | [] => false
  | elemB :: listB' =>
      if String.eqb (StringValue elemA) (StringValue elemB) then true
      else foundIn elemA listB'
  end.

(** Outer loop of [listCompareStringPtrIsSame]. *)
Fixpoint compareLoop (listA listB : list (option string)) : bool :=
  match listA with
  | [] => true
  | elemA :: listA' =>
      if foundIn elemA listB then compareLoop listA' listB else false
  end.

Definition listCompareStringPtrIsSame (listA listB : slice (option string)) : bool :=
  if negb (Nat.eqb (len listA) (len listB)) then false
  else compareLoop (elems listA) (elems listB).


(** Inner loop of [sgCompare]: is the declared group among the group
    identifiers of the upstream groups? *)
Fixpoint foundInGroups (declaredSG : option string)
    (upstreamSGs : list SecurityGroupIdentifier.t) : bool :=
  match upstreamSGs with
  | [] => false
  | upstreamSG :: upstreamSGs' =>
      if String.eqb (StringValue declaredSG)
                    (StringValue (SecurityGroupIdentifier.GroupId upstreamSG))
      then true
      else foundInGroups declaredSG upstreamSGs'
  end.

(** Outer loop of [sgCompare]: [false] when the loop body reaches its
    [return false, nil]. *)
Fixpoint sgCompare (declaredSGs : list (option string))
    (upstreamSGs : list SecurityGroupIdentifier.t) : bool :=
  match declaredSGs with
  | [] => true
  | declaredSG :: declaredSGs' =>
      if foundInGroups declaredSG upstreamSGs then sgCompare declaredSGs' upstreamSGs
      else false
  end.

(** The double quote character, and a quoted word of a JSON text. *)
Definition dquote : string := String (ascii_of_nat 34) EmptyString.
Definition quoted (s : string) : string := dquote +:+ s +:+ dquote.

(** The literal [defaultPolicy] of [isUpToDate]; the blank after the colon
    of the effect is in the source. *)
Definition defaultPolicy : string :=
  "{" +:+ quoted "Statement" +:+ ":[{"
      +:+ quoted "Action" +:+ ":" +:+ quoted "*" +:+ ","
      +:+ quoted "Effect" +:+ ": " +:+ quoted "Allow" +:+ ","
      +:+ quoted "Principal" +:+ ":" +:+ quoted "*" +:+ ","
      +:+ quoted "Resource" +:+ ":" +:+ quoted "*" +:+ "}]}".

(** ** The hooks *)

(** The tag specification [preCreate] builds. *)
Definition nameTagSpecification (cr : VPCEndpoint.t) : TagSpecification.t :=
  let resType := "vpc-endpoint" in
  let key := "Name" in
  let value := meta.GetExternalName cr in
  TagSpecification.mk (Some resType) [Tag.mk (Some key) (Some value)].

Definition preCreate (cr : VPCEndpoint.t) (obj : CreateVpcEndpointInput.t)
  : CreateVpcEndpointInput.t * option error :=
  let fp := VPCEndpoint.ForProvider cr in
  let securityGroupIds :=
    if is_nil (VPCEndpointParameters.SecurityGroupIDs fp)
       || Nat.eqb (len (VPCEndpointParameters.SecurityGroupIDs fp)) 0
    then None else CreateVpcEndpointInput.SecurityGroupIds obj in
  let routeTableIds :=
    if is_nil (VPCEndpointParameters.RouteTableIDs fp)
       || Nat.eqb (len (VPCEndpointParameters.RouteTableIDs fp)) 0
    then None else CreateVpcEndpointInput.RouteTableIds obj in
  let subnetIds :=
    if is_nil (VPCEndpointParameters.SubnetIDs fp)
       || Nat.eqb (len (VPCEndpointParameters.SubnetIDs fp)) 0
    then None else CreateVpcEndpointInput.SubnetIds obj in
  (CreateVpcEndpointInput.mk securityGroupIds routeTableIds subnetIds
     (CreateVpcEndpointInput.TagSpecifications obj ++ [nameTagSpecification cr]),
   None).

Definition postCreate (cr : VPCEndpoint.t) (obj : CreateVpcEndpointOutput.t)
    (cre : managed.ExternalCreation) (err : option error)
  : VPCEndpoint.t * managed.ExternalCreation * option error :=
  match err, CreateVpcEndpointOutput.VpcEndpoint obj with
  | None, Some vpcEndpoint =>
      (meta.SetExternalName cr (StringValue (VpcEndpoint.VpcEndpointId vpcEndpoint)),
       managed.mkExternalCreation true (managed.CreationDetails cre),
       None)
  | _, _ => (cr, managed.zeroCreation, err)
  end.

Definition generateVPCEndpointSDK (vpcEndpoint : VpcEndpoint.t)
  : outcome VPCEndpoint_SDK.t :=
  creationTimestamp ← deref (VpcEndpoint.CreationTimestamp vpcEndpoint);
  Returned
    (VPCEndpoint_SDK.mk (Some creationTimestamp)
       (map (fun dnsEntry =>
               DNSEntry.mk (DnsEntry.DnsName dnsEntry) (DnsEntry.HostedZoneId dnsEntry))
            (VpcEndpoint.DnsEntries vpcEndpoint))
       (VpcEndpoint.State vpcEndpoint)).

(** The [switch] of [postObserve] on the state of the endpoint. *)
Definition setStateCondition (cr : VPCEndpoint.t) (state : string) : VPCEndpoint.t :=
  if String.eqb state "available" then VPCEndpoint.SetConditions cr [xpv1.Available]
  else if String.eqb state "pending" || String.eqb state "pending-acceptance"
  then VPCEndpoint.SetConditions cr [xpv1.Creating]
  else if String.eqb state "deleted" then VPCEndpoint.SetConditions cr [xpv1.Unavailable]
  else if String.eqb state "deleting" then VPCEndpoint.SetConditions cr [xpv1.Deleting]
  else cr.

(** The connection details [postObserve] loads from the DNS entries. *)
Definition loadConnectionDetails (vpcEndpoint : VpcEndpoint.t)
    (obs : managed.ExternalObservation) : managed.ExternalObservation :=
  match VpcEndpoint.DnsEntries vpcEndpoint with
  | dnsEntry :: _ =>
      if negb (String.eqb (StringValue (DnsEntry.DnsName dnsEntry)) "")
      then managed.mkExternalObservation
             (managed.ResourceExists obs) (managed.ResourceUpToDate obs)
             (managed.ResourceLateInitialized obs)
             {[ xpv1.ResourceCredentialsSecretEndpointKey :=
                  list_byte_of_string (StringValue (DnsEntry.DnsName dnsEntry)) ]}
      else obs
  | [] => obs
  end.

Definition postObserve (cr : VPCEndpoint.t) (resp : DescribeVpcEndpointsOutput.t)
    (obs : managed.ExternalObservation) (err : option error)
  : outcome (VPCEndpoint.t * managed.ExternalObservation * option error) :=
  match err with
  | Some _ => Returned (cr, managed.zeroObservation, err)
  | None =>
      vpcEndpoint ← index0 (DescribeVpcEndpointsOutput.VpcEndpoints resp);
      let obs := loadConnectionDetails vpcEndpoint obs in
      sdk ← generateVPCEndpointSDK vpcEndpoint;
      let cr := VPCEndpoint.setAtProvider cr sdk in
      let cr := setStateCondition cr (StringValue (VpcEndpoint.State vpcEndpoint)) in
      Returned (cr, obs, None)
  end.

(** [filterList]: the range loop with its [break]; [found] is
    [resp.VpcEndpoints] so far. *)
Fixpoint filterLoop (connectionIdentifier : option string)
    (vpcEndpoints found : list VpcEndpoint.t) : list VpcEndpoint.t :=
  match vpcEndpoints with
  | [] => found
  | vpcEndpoint :: vpcEndpoints' =>
      if String.eqb (StringValue (VpcEndpoint.VpcEndpointId vpcEndpoint))
                    (StringValue connectionIdentifier)
      then found ++ [vpcEndpoint]
      else filterLoop connectionIdentifier vpcEndpoints' found
  end.

Definition filterList (cr : VPCEndpoint.t) (obj : DescribeVpcEndpointsOutput.t)
  : DescribeVpcEndpointsOutput.t :=
  let connectionIdentifier := Some (meta.GetExternalName cr) in
  DescribeVpcEndpointsOutput.mk
    (filterLoop connectionIdentifier (DescribeVpcEndpointsOutput.VpcEndpoints obj) []).

(** The drift detection, over the comparison of [jsondiff]. *)
Section DiffEngine.

(** [jsondiff.Compare a b opts] with empty options, reduced to its
    verdict: the hook discards the rendered difference. *)
Variable Compare : string -> string -> jsondiff.Difference.

Definition isUpToDate (cr : VPCEndpoint.t) (obj : DescribeVpcEndpointsOutput.t)
  : outcome (bool * option error) :=
  let fp := VPCEndpoint.ForProvider cr in
  vpcEndpoint ← index0 (DescribeVpcEndpointsOutput.VpcEndpoints obj);
  if negb (listCompareStringPtrIsSame (VpcEndpoint.SubnetIds vpcEndpoint)
             (VPCEndpointParameters.SubnetIDs fp))
  then Returned (false, None)
  else if negb (listCompareStringPtrIsSame (VpcEndpoint.RouteTableIds vpcEndpoint)
                  (VPCEndpointParameters.RouteTableIDs fp))
  then Returned (false, None)
  else
    let upstreamSGs := VpcEndpoint.Groups vpcEndpoint in
    if negb (Nat.eqb (length upstreamSGs)
               (len (VPCEndpointParameters.SecurityGroupIDs fp)))
    then Returned (false, None)
    else if negb (sgCompare (elems (VPCEndpointParameters.SecurityGroupIDs fp))
                    upstreamSGs)
    then Returned (false, None)
    else
      let declaredPolicy := StringValue (VPCEndpointParameters.PolicyDocument fp) in
      let upstreamPolicy := StringValue (VpcEndpoint.PolicyDocument vpcEndpoint) in
      if String.eqb declaredPolicy ""
      then
        let difference := Compare upstreamPolicy defaultPolicy in
        Returned (jsondiff.eqb difference jsondiff.FullMatch
                  || jsondiff.eqb difference jsondiff.SupersetMatch, None)
      else
        let difference := Compare upstreamPolicy declaredPolicy in
        Returned (jsondiff.eqb difference jsondiff.FullMatch, None).

End DiffEngine.

(** ** The earlier revision, [setup.go] *)
Module SetupGo.

Definition preCreate (cr : VPCEndpoint.t) (obj : CreateVpcEndpointInput.t)
  : CreateVpcEndpointInput.t * option error :=
  (CreateVpcEndpointInput.mk
     (CreateVpcEndpointInput.SecurityGroupIds obj)
     (CreateVpcEndpointInput.RouteTableIds obj)
     (CreateVpcEndpointInput.SubnetIds obj)
     (CreateVpcEndpointInput.TagSpecifications obj ++ [nameTagSpecification cr]),
   None).

Definition postCreate (cr : VPCEndpoint.t) (obj : CreateVpcEndpointOutput.t)
    (cre : managed.ExternalCreation) (err : option error)
  : outcome (VPCEndpoint.t * managed.ExternalCreation * option error) :=
  match err with
  | Some _ => Returned (cr, managed.zeroCreation, err)
  | None =>
      vpcEndpoint ← deref (CreateVpcEndpointOutput.VpcEndpoint obj);
      Returned
        (meta.SetExternalName cr (StringValue (VpcEndpoint.VpcEndpointId vpcEndpoint)),
         managed.mkExternalCreation true (managed.CreationDetails cre),
         None)
  end.

Definition setStateCondition (cr : VPCEndpoint.t) (state : string) : VPCEndpoint.t :=
  if String.eqb state "available" then VPCEndpoint.SetConditions cr [xpv1.Available]
  else if String.eqb state "pending" then VPCEndpoint.SetConditions cr [xpv1.Creating]
  else if String.eqb state "pending-acceptance"
  then VPCEndpoint.SetConditions cr [xpv1.Creating]
  else if String.eqb state "deleted" then VPCEndpoint.SetConditions cr [xpv1.Unavailable]
  else if String.eqb state "deleting" then VPCEndpoint.SetConditions cr [xpv1.Deleting]
  else cr.

Definition postObserve (cr : VPCEndpoint.t) (resp : DescribeVpcEndpointsOutput.t)
    (obs : managed.ExternalObservation) (err : option error)
  : outcome (VPCEndpoint.t * managed.ExternalObservation * option error) :=
  match err with
  | Some _ => Returned (cr, managed.zeroObservation, err)
  | None =>
      vpcEndpoint ← index0 (DescribeVpcEndpointsOutput.VpcEndpoints resp);
      let cr := setStateCondition cr (StringValue (VpcEndpoint.State vpcEndpoint)) in
      Returned (cr, obs, None)
  end.

Definition isUpToDate (cr : VPCEndpoint.t) (obj : DescribeVpcEndpointsOutput.t)
  : outcome (bool * option error) :=
  Returned (true, None).

End SetupGo.

(** ** Update shaping and deletion *)

(** [listSubtractFromStringPtr]: the loop over [base]; an element whose
    string occurs in [subtract] is skipped, any other is appended to
    [result]. *)
Fixpoint subtractLoop (base subtract result : list (option string))
  : list (option string) :=
  match base with
  | [] => result
  | baseElem :: base' =>
      if foundIn baseElem subtract then subtractLoop base' subtract result
      else subtractLoop base' subtract (result ++ [baseElem])
  end.

(** The result starts as the empty slice literal, so it is never nil. *)
Definition listSubtractFromStringPtr (base subtract : slice (option string))
  : slice (option string) :=
  Some (subtractLoop (elems base) (elems subtract) []).

(** [ec2.ModifyVpcEndpointInput]: the fields the formatting touches, and
    the identifier of the endpoint. *)
Module ModifyVpcEndpointInput.
Record t : Type := mk {
  AddRouteTableIds : slice (option string);
  AddSecurityGroupIds : slice (option string);
  AddSubnetIds : slice (option string);
  PolicyDocument : option string;
  RemoveRouteTableIds : slice (option string);
  RemoveSecurityGroupIds : slice (option string);
  RemoveSubnetIds : slice (option string);
  VpcEndpointId : option string
}.
End ModifyVpcEndpointInput.

(** [if len(l) == 0 { l = nil }] *)
Definition nilIfEmpty (l : slice (option string)) : slice (option string) :=
  if Nat.eqb (len l) 0 then None else l.

Section UpdateShaping.

(** [strings.TrimSpace], of the Go standard library. *)
Variable TrimSpace : string -> string.

Definition formatModifyVpcEndpointInput (obj : ModifyVpcEndpointInput.t)
  : ModifyVpcEndpointInput.t :=
  ModifyVpcEndpointInput.mk
    (nilIfEmpty (ModifyVpcEndpointInput.AddRouteTableIds obj))
    (nilIfEmpty (ModifyVpcEndpointInput.AddSecurityGroupIds obj))
    (nilIfEmpty (ModifyVpcEndpointInput.AddSubnetIds obj))
    (if String.eqb (TrimSpace (StringValue (ModifyVpcEndpointInput.PolicyDocument obj))) ""
     then None else ModifyVpcEndpointInput.PolicyDocument obj)
    (nilIfEmpty (ModifyVpcEndpointInput.RemoveRouteTableIds obj))
    (nilIfEmpty (ModifyVpcEndpointInput.RemoveSecurityGroupIds obj))
    (nilIfEmpty (ModifyVpcEndpointInput.RemoveSubnetIds obj))
    (ModifyVpcEndpointInput.VpcEndpointId obj).

End UpdateShaping.

(** [ec2.DeleteVpcEndpointsInput] *)
Module DeleteVpcEndpointsInput.
Record t : Type := mk { VpcEndpointIds : slice (option string) }.
End DeleteVpcEndpointsInput.

(** A value of the interface [cpresource.Managed]: the endpoint resource,
    or a resource of another kind. *)
Inductive Managed : Type :=
  | ManagedVPCEndpoint (cr : VPCEndpoint.t)
  | ManagedOther.

Section Delete.

(** The remote side behind [e.client], and its call
    [DeleteVpcEndpoints]: the new remote state and the error. *)
Variable Client : Type.
Variable DeleteVpcEndpoints :
  DeleteVpcEndpointsInput.t -> Client -> Client * option error.

(** The message [errUnexpectedObject], declared with the generated
    controller. *)
Variable errUnexpectedObject : string.

Definition delete (mg : Managed) (client : Client) : Client * option error :=
  match mg with
  | ManagedVPCEndpoint cr =>
      let externalName := meta.GetExternalName cr in
      let deleteInput := DeleteVpcEndpointsInput.mk (Some [Some externalName]) in
      DeleteVpcEndpoints deleteInput client
  | ManagedOther => (client, Some errUnexpectedObject)
  end.

End Delete.

(** ** A reference comparison

    The hooks are stated over any comparison; to run them on concrete
    policy documents this module gives one: a reader for the JSON that
    policy documents are written in (objects, arrays, strings with the
    simple escapes, integers and the three literals; anything else is
    rejected as invalid), and the structural comparison over the values
    read, where a value of the first argument may carry object members or
    trailing array elements that the second lacks. *)
Module JsonRef.

#[warnings="-register-all"]
Inductive json : Type :=
  | JNull
  | JBool (b : bool)
  | JNumber (literal : string)
  | JString (s : string)
  | JArray (elements : list json)
  | JObject (members : list (string * json)).

Definition isSpace (c : ascii) : bool :=
  let n := nat_of_ascii c in
  Nat.eqb n 32 || Nat.eqb n 9 || Nat.eqb n 10 || Nat.eqb n 13.

Definition isDigit (c : ascii) : bool :=
  let n := nat_of_ascii c in Nat.leb 48 n && Nat.leb n 57.

Definition isChar (c : ascii) (n : nat) : bool := Nat.eqb (nat_of_ascii c) n.

Fixpoint skipSpace (s : list ascii) : list ascii :=
  match s with
  | c :: s' => if isSpace c then skipSpace s' else s
  | [] => []
  end.

(** The characters of a string after its opening quote, up to the
    closing one. *)
Fixpoint readString (s : list ascii) (acc : list ascii)
  : option (string * list ascii) :=
  match s with
  | [] => None
  | c :: s' =>
      if isChar c 34 then Some (string_of_list_ascii (rev acc), s')
      else if isChar c 92 then
        match s' with
        | e :: s'' =>
            if isChar e 34 || isChar e 92 || isChar e 47
            then readString s'' (e :: acc)
            else if isChar e 110 then readString s'' (ascii_of_nat 10 :: acc)
            else if isChar e 116 then readString s'' (ascii_of_nat 9 :: acc)
            else if isChar e 114 then readString s'' (ascii_of_nat 13 :: acc)
            else None
        | [] => None
        end
      else if Nat.ltb (nat_of_ascii c) 32 then None
      else readString s' (c :: acc)
  end.

Fixpoint readDigits (s : list ascii) (acc : list ascii) : list ascii * list ascii :=
  match s with
  | c :: s' => if isDigit c then readDigits s' (c :: acc) else (rev acc, s)
  | [] => (rev acc, [])
  end.

(** After a number or a literal the text ends, or a blank or a
    delimiter follows. *)
Definition atValueEnd (s : list ascii) : bool :=
  match s with
  | [] => true
  | c :: _ => isSpace c || isChar c 44 || isChar c 93 || isChar c 125
  end.

Definition readNumber (s : list ascii) : option (json * list ascii) :=
  let '(sign, s1) :=
    match s with
    | c :: s' => if isChar c 45 then ([c], s') else ([], s)
    | [] => ([], s)
    end in
  let '(digits, rest) := readDigits s1 [] in
  match digits with
  | [] => None
  | _ :: _ =>
      if atValueEnd rest
      then Some (JNumber (string_of_list_ascii (sign ++ digits)), rest)
      else None
  end.

Fixpoint stripPrefix (word s : list ascii) : option (list ascii) :=
  match word, s with
  | [], _ => Some s
  | w :: word', c :: s' =>
      if Ascii.eqb w c then stripPrefix word' s' else None
  | _ :: _, [] => None
  end.

Definition readLiteral (word : string) (v : json) (s : list ascii)
  : option (json * list ascii) :=
  match stripPrefix (list_ascii_of_string word) s with
  | Some rest => if atValueEnd rest then Some (v, rest) else None
  | None => None
  end.

(** A member read later replaces an earlier one of the same name. *)
Fixpoint put (k : string) (v : json) (m : list (string * json))
  : list (string * json) :=
  match m with
  | [] => [(k, v)]
  | (k', v') :: m' =>
      if String.eqb k k' then (k, v) :: m' else (k', v') :: put k v m'
  end.

Fixpoint get (k : string) (m : list (string * json)) : option json :=
  match m with
  | [] => None
  | (k', v) :: m' => if String.eqb k k' then Some v else get k m'
  end.

Fixpoint readValue (fuel : nat) (s : list ascii) {struct fuel}
  : option (json * list ascii) :=
  match fuel with
  | 0 => None
  | S fuel' =>
      match skipSpace s with
      | [] => None
      | c :: r =>
          if isChar c 123 then
            match skipSpace r with
            | c' :: r' =>
                if isChar c' 125 then Some (JObject [], r')
                else readMembers fuel' (c' :: r') []
            | [] => None
            end
          else if isChar c 91 then
            match skipSpace r with
            | c' :: r' =>
                if isChar c' 93 then Some (JArray [], r')
                else readElements fuel' (c' :: r') []
            | [] => None
            end
          else if isChar c 34 then
            match readString r [] with
            | Some (str, r') => Some (JString str, r')
            | None => None
            end
          else if isChar c 116 then readLiteral "true" (JBool true) (c :: r)
          else if isChar c 102 then readLiteral "false" (JBool false) (c :: r)
          else if isChar c 110 then readLiteral "null" JNull (c :: r)
          else readNumber (c :: r)
      end
  end
with readElements (fuel : nat) (s : list ascii) (acc : list json) {struct fuel}
  : option (json * list ascii) :=
  match fuel with
  | 0 => None
  | S fuel' =>
      match readValue fuel' s with
      | Some (v, r) =>
          match skipSpace r with
          | c :: r' =>
              if isChar c 44 then readElements fuel' r' (acc ++ [v])
              else if isChar c 93 then Some (JArray (acc ++ [v]), r')
              else None
          | [] => None
          end
      | None => None
      end
  end
with readMembers (fuel : nat) (s : list ascii) (acc : list (string * json))
    {struct fuel} : option (json * list ascii) :=
  match fuel with
  | 0 => None
  | S fuel' =>
      match skipSpace s with
      | q :: r =>
          if isChar q 34 then
            match readString r [] with
            | Some (k, r1) =>
                match skipSpace r1 with
                | colon :: r2 =>
                    if isChar colon 58 then
                      match readValue fuel' r2 with
                      | Some (v, r3) =>
                          match skipSpace r3 with
                          | c :: r4 =>
                              if isChar c 44 then readMembers fuel' r4 (put k v acc)
                              else if isChar c 125 then Some (JObject (put k v acc), r4)
                              else None
                          | [] => None
                          end
                      | None => None
                      end
                    else None
                | [] => None
                end
            | None => None
            end
          else None
      | [] => None
      end
  end.

(** One value, from the start of the text. *)
Definition decode (text : string) : option json :=
  let s := list_ascii_of_string text in
  match readValue (2 * length s + 2) s with
  | Some (v, _) => Some v
  | None => None
  end.

(** How two verdicts combine: a mismatch wins over a superset, a
    superset over a full match. *)
Definition result (d1 d2 : jsondiff.Difference) : jsondiff.Difference :=
  match d1, d2 with
  | jsondiff.NoMatch, _ | _, jsondiff.NoMatch => jsondiff.NoMatch
  | jsondiff.SupersetMatch, _ | _, jsondiff.SupersetMatch => jsondiff.SupersetMatch
  | _, _ => jsondiff.FullMatch
  end.

Definition verdict (same : bool) : jsondiff.Difference :=
  if same then jsondiff.FullMatch else jsondiff.NoMatch.

Fixpoint diff (a b : json) {struct a} : jsondiff.Difference :=
  match a, b with
  | JNull, JNull => jsondiff.FullMatch
  | JBool x, JBool y => verdict (Bool.eqb x y)
  | JNumber x, JNumber y => verdict (String.eqb x y)
  | JString x, JString y => verdict (String.eqb x y)
  | JArray sa, JArray sb =>
      (fix elements (sa sb : list json) {struct sa} : jsondiff.Difference :=
         match sa, sb with
         | [], [] => jsondiff.FullMatch
         | x :: sa', y :: sb' => result (diff x y) (elements sa' sb')
         | _ :: _, [] => jsondiff.SupersetMatch
         | [], _ :: _ => jsondiff.NoMatch
         end) sa sb
  | JObject ma, JObject mb =>
      result
        ((fix members (ma : list (string * json)) : jsondiff.Difference :=
            match ma with
            | [] => jsondiff.FullMatch
            | (k, va) :: ma' =>
                result
                  match get k mb with
                  | Some vb => diff va vb
                  | None => jsondiff.SupersetMatch
                  end
                  (members ma')
            end) ma)
        (verdict (forallb (fun kv => bool_decide (is_Some (get kv.1 ma))) mb))
  | _, _ => jsondiff.NoMatch
  end.

Definition Compare (a b : string) : jsondiff.Difference :=
  match decode a, decode b with
  | None, None => jsondiff.BothArgsAreInvalidJson
  | None, Some _ => jsondiff.FirstArgIsInvalidJson
  | Some _, None => jsondiff.SecondArgIsInvalidJson
  | Some av, Some bv => diff av bv
  end.

End JsonRef.

(** ** Vocabulary of the statements *)

(** The identifiers a list of string pointers stands for. *)
Definition ids (l : slice (option string)) : list string := StringValue <$> elems l.

(** The three list checks that [isUpToDate] makes before it looks at the
    policy document. *)
Definition listChecksPass (cr : VPCEndpoint.t) (vpcEndpoint : VpcEndpoint.t) : bool :=
  let fp := VPCEndpoint.ForProvider cr in
  listCompareStringPtrIsSame (VpcEndpoint.SubnetIds vpcEndpoint)
    (VPCEndpointParameters.SubnetIDs fp)
  && listCompareStringPtrIsSame (VpcEndpoint.RouteTableIds vpcEndpoint)
       (VPCEndpointParameters.RouteTableIDs fp)
  && Nat.eqb (length (VpcEndpoint.Groups vpcEndpoint))
       (len (VPCEndpointParameters.SecurityGroupIDs fp))
  && sgCompare (elems (VPCEndpointParameters.SecurityGroupIDs fp))
       (VpcEndpoint.Groups vpcEndpoint).

(** The policy document the resource declares; empty when it declares none. *)
Definition declaredPolicy (cr : VPCEndpoint.t) : string :=
  StringValue (VPCEndpointParameters.PolicyDocument (VPCEndpoint.ForProvider cr)).

(** The policy document observed on the endpoint. *)
Definition upstreamPolicy (vpcEndpoint : VpcEndpoint.t) : string :=
  StringValue (VpcEndpoint.PolicyDocument vpcEndpoint).

(** The document the observed policy is compared with: the declared one,
    or the default policy when none is declared. *)
Definition expectedPolicy (cr : VPCEndpoint.t) : string :=
  if String.eqb (declaredPolicy cr) "" then defaultPolicy else declaredPolicy cr.

(** The readiness condition of a lifecycle state, as the specification
    words the mapping; [None] for a state it does not list. *)
Definition lifecycleCondition (state : string) : option xpv1.Condition :=
  if decide (state = "available") then Some xpv1.Available
  else if decide (state = "pending" ∨ state = "pending-acceptance") then Some xpv1.Creating
  else if decide (state = "deleting") then Some xpv1.Deleting
  else if decide (state = "deleted") then Some xpv1.Unavailable
  else None.

(** The identifier [filterList] looks for. *)
Definition addressedBy (cr : VPCEndpoint.t) (vpcEndpoint : VpcEndpoint.t) : Prop :=
  StringValue (VpcEndpoint.VpcEndpointId vpcEndpoint) = meta.GetExternalName cr.

(** The first DNS entry of the endpoint is [dnsEntry], and it has a name. *)
Definition primaryDnsEntry (vpcEndpoint : VpcEndpoint.t) (dnsEntry : DnsEntry.t) : Prop :=
  (∃ others, VpcEndpoint.DnsEntries vpcEndpoint = dnsEntry :: others)
  ∧ StringValue (DnsEntry.DnsName dnsEntry) ≠ "".

(** A list of the create request after [preCreate]: absent when the
    declared list is nil or empty, as it was otherwise. *)
Definition normalized (declared before after : slice (option string)) : Prop :=
  (len declared = 0 → after = None) ∧ (len declared ≠ 0 → after = before).

(** The strings of the declared security groups, and the group
    identifiers observed. *)
Definition declaredGroups (cr : VPCEndpoint.t) : list string :=
  ids (VPCEndpointParameters.SecurityGroupIDs (VPCEndpoint.ForProvider cr)).

Definition observedGroups (vpcEndpoint : VpcEndpoint.t) : list string :=
  (λ g, StringValue (SecurityGroupIdentifier.GroupId g)) <$> VpcEndpoint.Groups vpcEndpoint.

(** A list of a request that is absent or holds an element: never an
    empty list. *)
Definition absentOrFilled (l : slice (option string)) : Prop :=
  l = None ∨ len l ≠ 0.

(** The six lists of a modify request. *)
Definition deltas (obj : ModifyVpcEndpointInput.t) : list (slice (option string)) :=
  [ModifyVpcEndpointInput.AddRouteTableIds obj;
   ModifyVpcEndpointInput.AddSecurityGroupIds obj;
   ModifyVpcEndpointInput.AddSubnetIds obj;
   ModifyVpcEndpointInput.RemoveRouteTableIds obj;
   ModifyVpcEndpointInput.RemoveSecurityGroupIds obj;
   ModifyVpcEndpointInput.RemoveSubnetIds obj].

(** The declared and the observed lists agree: the subnets and the route
    tables hold the same identifiers as often, there are as many observed
    groups as declared ones, and every declared group is observed. *)
Definition listsAgree (cr : VPCEndpoint.t) (vpcEndpoint : VpcEndpoint.t) : Prop :=
  let fp := VPCEndpoint.ForProvider cr in
  ids (VpcEndpoint.SubnetIds vpcEndpoint) ≡ₚ ids (VPCEndpointParameters.SubnetIDs fp)
  ∧ ids (VpcEndpoint.RouteTableIds vpcEndpoint)
    ≡ₚ ids (VPCEndpointParameters.RouteTableIDs fp)
  ∧ length (VpcEndpoint.Groups vpcEndpoint)
    = len (VPCEndpointParameters.SecurityGroupIDs fp)
  ∧ ∀ x, x ∈ declaredGroups cr → x ∈ observedGroups vpcEndpoint.

(** The comparison accepts the observed policy: a full match with the
    expected document, or, when no policy is declared, a superset match. *)
Definition policyAccepted (Compare : string -> string -> jsondiff.Difference)
    (cr : VPCEndpoint.t) (vpcEndpoint : VpcEndpoint.t) : Prop :=
  let difference := Compare (upstreamPolicy vpcEndpoint) (expectedPolicy cr) in
  difference = jsondiff.FullMatch
  ∨ (declaredPolicy cr = "" ∧ difference = jsondiff.SupersetMatch).

(** ** Sample resources, for running the hooks *)
Module Sample.

Definition strs (l : list string) : slice (option string) := Some (Some <$> l).

(** A resource named [name] that declares the given lists and policy. *)
Definition resource (name : string) (securityGroups routeTables subnets : list string)
    (policy : option string) : VPCEndpoint.t :=
  VPCEndpoint.mk {[ meta.AnnotationKeyExternalName := name ]}
    (VPCEndpointParameters.mk (strs securityGroups) (strs routeTables) (strs subnets)
       policy)
    None [xpv1.Creating].

(** An observed endpoint without DNS entries. *)
Definition endpoint (id state : string) (groups routeTables subnets : list string)
    (policy : string) : VpcEndpoint.t :=
  VpcEndpoint.mk (Some id) (Some state) (strs subnets) (strs routeTables)
    ((fun g => SecurityGroupIdentifier.mk (Some g) None) <$> groups)
    [] (Some policy) (Some 1700000000%Z).

Definition withDns (vpcEndpoint : VpcEndpoint.t) (names : list string) : VpcEndpoint.t :=
  VpcEndpoint.mk (VpcEndpoint.VpcEndpointId vpcEndpoint) (VpcEndpoint.State vpcEndpoint)
    (VpcEndpoint.SubnetIds vpcEndpoint) (VpcEndpoint.RouteTableIds vpcEndpoint)
    (VpcEndpoint.Groups vpcEndpoint)
    ((fun n => DnsEntry.mk (Some n) None) <$> names)
    (VpcEndpoint.PolicyDocument vpcEndpoint) (VpcEndpoint.CreationTimestamp vpcEndpoint).

Definition described (vpcEndpoints : list VpcEndpoint.t) : DescribeVpcEndpointsOutput.t :=
  DescribeVpcEndpointsOutput.mk vpcEndpoints.

(** The default policy with a version member, its members in another
    order and other blanks: a superset of the default policy. *)
Definition versionedPolicy : string :=
  "{ " +:+ quoted "Version" +:+ ": " +:+ quoted "2008-10-17" +:+ ", "
       +:+ quoted "Statement" +:+ ": [ {"
       +:+ quoted "Resource" +:+ ":" +:+ quoted "*" +:+ ", "
       +:+ quoted "Principal" +:+ ":" +:+ quoted "*" +:+ ", "
       +:+ quoted "Effect" +:+ ":" +:+ quoted "Allow" +:+ ", "
       +:+ quoted "Action" +:+ ":" +:+ quoted "*" +:+ "} ] }".

(** The default policy, its members in another order. *)
Definition reorderedPolicy : string :=
  "{" +:+ quoted "Statement" +:+ ": [{"
      +:+ quoted "Resource" +:+ ":" +:+ quoted "*" +:+ ", "
      +:+ quoted "Principal" +:+ ":" +:+ quoted "*" +:+ ", "
      +:+ quoted "Effect" +:+ ":" +:+ quoted "Allow" +:+ ", "
      +:+ quoted "Action" +:+ ":" +:+ quoted "*" +:+ "}]}".

(** A text the decoder rejects. *)
Definition brokenPolicy : string := "{" +:+ quoted "Statement" +:+ ":[".

(** The blanks of the ASCII range that [strings.TrimSpace] removes. *)
Definition isBlank (c : ascii) : bool :=
  let n := nat_of_ascii c in
  Nat.eqb n 32 || (Nat.leb 9 n && Nat.leb n 13).

Fixpoint trimLeft (s : list ascii) : list ascii :=
  match s with
  | c :: s' => if isBlank c then trimLeft s' else s
  | [] => []
  end.

(** [strings.TrimSpace] on ASCII text. *)
Definition trimAscii (s : string) : string :=
  string_of_list_ascii (rev (trimLeft (rev (trimLeft (list_ascii_of_string s))))).

(** A remote side that records the identifiers it was asked to delete
    and refuses an empty identifier. *)
Definition recordingDelete (input : DeleteVpcEndpointsInput.t)
    (log : list (list string)) : list (list string) * option error :=
  (log ++ [ids (DeleteVpcEndpointsInput.VpcEndpointIds input)],
   if bool_decide ("" ∈ ids (DeleteVpcEndpointsInput.VpcEndpointIds input))
   then Some "InvalidVpcEndpointId.Malformed" else None).

End Sample.

(** ** Proof steps *)

(** Rewrites the string tests that the context refutes. *)
Ltac refute_eqb :=
  repeat match goal with
         | H : ?s ≠ ?t |- context [String.eqb ?s ?t] =>
             rewrite (proj2 (String.eqb_neq s t) H)
         end.

(** Splits on the cases of [lifecycleCondition]. *)
Ltac lifecycle_cases state :=
  unfold lifecycleCondition;
  destruct (decide (state = "available")) as [-> | ?]; [reflexivity |];
  destruct (decide (state = "pending" ∨ state = "pending-acceptance"))
    as [[-> | ->] | [? ?]%Decidable.not_or]; [reflexivity | reflexivity |];
  destruct (decide (state = "deleting")) as [-> | ?]; [reflexivity |];
  destruct (decide (state = "deleted")) as [-> | ?]; [reflexivity |];
  refute_eqb; reflexivity.

(** * Properties *)

(** ** The list comparison *)

Lemma foundIn_elem_of elemA listB :
  foundIn elemA listB = true ↔ StringValue elemA ∈ StringValue <$> listB.
Proof.
  induction listB as [|elemB listB IH]; simpl.
  - split; [discriminate | intros H; inversion H].
  - rewrite elem_of_cons. destruct (String.eqb_spec (StringValue elemA) (StringValue elemB)).
    + split; auto.
    + rewrite IH. split; [auto | intros [?|?]; [contradiction | assumption]].
Qed.

Lemma compareLoop_subseteq listA listB :
  compareLoop listA listB = true ↔
  ∀ x, x ∈ StringValue <$> listA → x ∈ StringValue <$> listB.
Proof.
  induction listA as [|elemA listA IH]; simpl.
  - split; [intros _ x H; inversion H | reflexivity].
  - destruct (foundIn elemA listB) eqn:Hfound.
    + rewrite IH. apply foundIn_elem_of in Hfound. split.
      * intros H x. rewrite elem_of_cons. intros [->|Hx]; auto.
      * intros H x Hx. apply H. rewrite elem_of_cons. auto.
    + split; [discriminate |]. intros H.
      assert (StringValue elemA ∈ StringValue <$> listB) as Hin
        by (apply H; rewrite elem_of_cons; auto).
      apply foundIn_elem_of in Hin. congruence.
Qed.

Lemma listCompare_true_iff listA listB :
  listCompareStringPtrIsSame listA listB = true ↔
  len listA = len listB ∧ ∀ x, x ∈ ids listA → x ∈ ids listB.
Proof.
  unfold listCompareStringPtrIsSame, ids.
  destruct (Nat.eqb_spec (len listA) (len listB)) as [Hlen|Hlen]; simpl.
  - rewrite compareLoop_subseteq. tauto.
  - split; [discriminate | tauto].
Qed.

Lemma length_ids l : length (ids l) = len l.
Proof. unfold ids, len. apply length_fmap. Qed.

Lemma listCompare_permutation listA listB :
  ids listA ≡ₚ ids listB → listCompareStringPtrIsSame listA listB = true.
Proof.
  intros Hperm. apply listCompare_true_iff. split.
  - rewrite <- !length_ids. by apply Permutation_length.
  - intros x. by rewrite Hperm.
Qed.

Lemma listCompare_true_NoDup listA listB :
  NoDup (ids listA) → listCompareStringPtrIsSame listA listB = true →
  ids listA ≡ₚ ids listB.
Proof.
  intros Hnodup [Hlen Hsub]%listCompare_true_iff.
  apply submseteq_length_Permutation.
  - by apply NoDup_submseteq.
  - rewrite !length_ids. lia.
Qed.

Lemma listCompare_mismatch listA listB :
  len listA ≠ len listB
  ∨ (∃ x, x ∈ ids listA ∧ x ∉ ids listB)
  ∨ (NoDup (ids listA) ∧ ∃ x, x ∈ ids listB ∧ x ∉ ids listA) →
  listCompareStringPtrIsSame listA listB = false.
Proof.
  intros H. apply not_true_is_false. intros Htrue.
  destruct H as [Hlen | [(x & Hx & Hnx) | (Hnodup & x & Hx & Hnx)]].
  - apply listCompare_true_iff in Htrue. tauto.
  - apply listCompare_true_iff in Htrue as [_ Hsub]. auto.
  - apply Hnx. by rewrite (listCompare_true_NoDup _ _ Hnodup Htrue).
Qed.

(** ** The drift detection *)

Lemma jsondiff_eqb_eq d1 d2 : jsondiff.eqb d1 d2 = true ↔ d1 = d2.
Proof. destruct d1, d2; simpl; split; congruence. Qed.

Section DiffEngineFacts.

Variable Compare : string -> string -> jsondiff.Difference.

Lemma isUpToDate_lists_fail cr vpcEndpoint rest :
  listChecksPass cr vpcEndpoint = false →
  isUpToDate Compare cr (DescribeVpcEndpointsOutput.mk (vpcEndpoint :: rest))
  = Returned (false, None).
Proof.
  unfold listChecksPass, isUpToDate. simpl.
  repeat match goal with
         | |- context [negb ?b] => destruct b; simpl; try reflexivity
         end.
  discriminate.
Qed.

Lemma isUpToDate_lists_pass cr vpcEndpoint rest :
  listChecksPass cr vpcEndpoint = true →
  isUpToDate Compare cr (DescribeVpcEndpointsOutput.mk (vpcEndpoint :: rest))
  = Returned
      (let difference := Compare (upstreamPolicy vpcEndpoint) (expectedPolicy cr) in
       if String.eqb (declaredPolicy cr) ""
       then jsondiff.eqb difference jsondiff.FullMatch
            || jsondiff.eqb difference jsondiff.SupersetMatch
       else jsondiff.eqb difference jsondiff.FullMatch,
       None).
Proof.
  unfold listChecksPass, isUpToDate, expectedPolicy, declaredPolicy, upstreamPolicy.
  simpl. intros H.
  repeat (apply andb_prop in H as [H ?]).
  repeat match goal with
         | Hb : ?b = true |- context [negb ?b] => rewrite Hb; simpl
         end.
  by destruct (String.eqb _ "").
Qed.

Lemma isUpToDate_returns cr vpcEndpoint rest :
  ∃ upToDate,
    isUpToDate Compare cr (DescribeVpcEndpointsOutput.mk (vpcEndpoint :: rest))
    = Returned (upToDate, None).
Proof.
  destruct (listChecksPass cr vpcEndpoint) eqn:Hlists.
  - rewrite isUpToDate_lists_pass by done. eauto.
  - rewrite isUpToDate_lists_fail by done. eauto.
Qed.

Lemma listChecksPass_subnets cr vpcEndpoint :
  listCompareStringPtrIsSame (VpcEndpoint.SubnetIds vpcEndpoint)
    (VPCEndpointParameters.SubnetIDs (VPCEndpoint.ForProvider cr)) = false →
  listChecksPass cr vpcEndpoint = false.
Proof. unfold listChecksPass. simpl. by intros ->. Qed.

Lemma listChecksPass_routeTables cr vpcEndpoint :
  listCompareStringPtrIsSame (VpcEndpoint.RouteTableIds vpcEndpoint)
    (VPCEndpointParameters.RouteTableIDs (VPCEndpoint.ForProvider cr)) = false →
  listChecksPass cr vpcEndpoint = false.
Proof. unfold listChecksPass. simpl. intros ->. by rewrite andb_false_r. Qed.

(** C1, as amended.  For the subnets and for the route tables, observed
    list first: lists that hold the same identifiers the same number of
    times, in any order, are judged equal; lists of different lengths,
    an observed identifier that is not declared, and, when no observed
    identifier is repeated, a declared identifier that is not observed,
    are judged unequal, and [isUpToDate] then returns false with a nil
    error. *)
Theorem isUpToDate_identifier_lists cr vpcEndpoint rest listA listB :
  (listA, listB) = (VpcEndpoint.SubnetIds vpcEndpoint,
                    VPCEndpointParameters.SubnetIDs (VPCEndpoint.ForProvider cr))
  ∨ (listA, listB) = (VpcEndpoint.RouteTableIds vpcEndpoint,
                      VPCEndpointParameters.RouteTableIDs (VPCEndpoint.ForProvider cr)) →
  (ids listA ≡ₚ ids listB → listCompareStringPtrIsSame listA listB = true)
  ∧ (len listA ≠ len listB
     ∨ (∃ x, x ∈ ids listA ∧ x ∉ ids listB)
     ∨ (NoDup (ids listA) ∧ ∃ x, x ∈ ids listB ∧ x ∉ ids listA) →
     listCompareStringPtrIsSame listA listB = false
     ∧ isUpToDate Compare cr (DescribeVpcEndpointsOutput.mk (vpcEndpoint :: rest))
       = Returned (false, None)).
Proof.
  intros Hpair. split; [apply listCompare_permutation |].
  intros Hfalse%listCompare_mismatch. split; [done |].
  apply isUpToDate_lists_fail.
  destruct Hpair as [[= -> ->] | [= -> ->]];
    auto using listChecksPass_subnets, listChecksPass_routeTables.
Qed.

(** C2, as amended.  When no policy document is declared and the three
    list checks pass, [isUpToDate] returns true exactly when the
    comparison of the observed document with the default policy reports
    a full match or a superset match; so an observed document that is
    not the text of the default policy and is a superset of it is up to
    date. *)
Theorem isUpToDate_default_policy cr vpcEndpoint rest :
  declaredPolicy cr = "" →
  listChecksPass cr vpcEndpoint = true →
  ∃ upToDate,
    isUpToDate Compare cr (DescribeVpcEndpointsOutput.mk (vpcEndpoint :: rest))
    = Returned (upToDate, None)
    ∧ (upToDate = true ↔
       Compare (upstreamPolicy vpcEndpoint) defaultPolicy = jsondiff.FullMatch
       ∨ Compare (upstreamPolicy vpcEndpoint) defaultPolicy = jsondiff.SupersetMatch)
    ∧ (upstreamPolicy vpcEndpoint ≠ defaultPolicy →
       Compare (upstreamPolicy vpcEndpoint) defaultPolicy = jsondiff.SupersetMatch →
       upToDate = true).
Proof.
  intros Hnone Hlists. eexists. split; [by apply isUpToDate_lists_pass |].
  unfold expectedPolicy. rewrite Hnone. simpl.
  rewrite orb_true_iff, !jsondiff_eqb_eq. split; [done |].
  intros _ ->. by right.
Qed.

(** C3.  When a policy document is declared and the three list checks
    pass, [isUpToDate] returns true exactly when the comparison of the
    observed document with the declared one reports a full match; a
    superset match is not up to date. *)
Theorem isUpToDate_declared_policy cr vpcEndpoint rest :
  declaredPolicy cr ≠ "" →
  listChecksPass cr vpcEndpoint = true →
  ∃ upToDate,
    isUpToDate Compare cr (DescribeVpcEndpointsOutput.mk (vpcEndpoint :: rest))
    = Returned (upToDate, None)
    ∧ (upToDate = true ↔
       Compare (upstreamPolicy vpcEndpoint) (declaredPolicy cr) = jsondiff.FullMatch)
    ∧ (Compare (upstreamPolicy vpcEndpoint) (declaredPolicy cr) = jsondiff.SupersetMatch →
       upToDate = false).
Proof.
  intros Hsome Hlists. eexists. split; [by apply isUpToDate_lists_pass |].
  unfold expectedPolicy. apply String.eqb_neq in Hsome. rewrite Hsome. simpl.
  rewrite jsondiff_eqb_eq. split; [done |]. by intros ->.
Qed.

(** C4.  On a response that holds an observed endpoint [isUpToDate]
    returns, and its error is nil; when the comparison reports that the
    observed document or the one it is compared with is not JSON, the
    verdict is false. *)
Theorem isUpToDate_nil_error cr vpcEndpoint rest :
  (∃ upToDate,
     isUpToDate Compare cr (DescribeVpcEndpointsOutput.mk (vpcEndpoint :: rest))
     = Returned (upToDate, None))
  ∧ (jsondiff.invalidJson
       (Compare (upstreamPolicy vpcEndpoint) (expectedPolicy cr)) = true →
     isUpToDate Compare cr (DescribeVpcEndpointsOutput.mk (vpcEndpoint :: rest))
     = Returned (false, None)).
Proof.
  split; [apply isUpToDate_returns |]. intros Hinvalid.
  destruct (listChecksPass cr vpcEndpoint) eqn:Hlists;
    [| by apply isUpToDate_lists_fail].
  rewrite isUpToDate_lists_pass by done. simpl.
  destruct (Compare _ _); try discriminate; by destruct (String.eqb _ "").
Qed.

End DiffEngineFacts.

(** C1: the witness.  Two subnets declared in the other order are judged
    equal; an observed subnet that is not declared, and a declared subnet
    that is not observed, make [isUpToDate] return false. *)
Lemma isUpToDate_identifier_lists_witness :
  listCompareStringPtrIsSame (Sample.strs ["subnet-1"; "subnet-2"])
    (Sample.strs ["subnet-2"; "subnet-1"]) = true
  ∧ isUpToDate JsonRef.Compare
      (Sample.resource "vpce-1" [] [] ["subnet-1"] None)
      (Sample.described
         [Sample.endpoint "vpce-1" "available" [] [] ["subnet-1"; "subnet-2"] defaultPolicy])
    = Returned (false, None)
  ∧ isUpToDate JsonRef.Compare
      (Sample.resource "vpce-1" [] ["rtb-1"; "rtb-2"] [] None)
      (Sample.described
         [Sample.endpoint "vpce-1" "available" [] ["rtb-1"; "rtb-3"] [] defaultPolicy])
    = Returned (false, None).
Proof.
  split; [| split].
  - apply (proj1 (isUpToDate_identifier_lists JsonRef.Compare
             (Sample.resource "vpce-1" [] [] ["subnet-2"; "subnet-1"] None)
             (Sample.endpoint "vpce-1" "available" [] [] ["subnet-1"; "subnet-2"]
                defaultPolicy)
             [] _ _ (or_introl eq_refl))).
    apply perm_swap.
  - apply (proj2 (isUpToDate_identifier_lists JsonRef.Compare
             (Sample.resource "vpce-1" [] [] ["subnet-1"] None)
             (Sample.endpoint "vpce-1" "available" [] [] ["subnet-1"; "subnet-2"]
                defaultPolicy)
             [] _ _ (or_introl eq_refl))).
    left. vm_compute. lia.
  - apply (proj2 (isUpToDate_identifier_lists JsonRef.Compare
             (Sample.resource "vpce-1" [] ["rtb-1"; "rtb-2"] [] None)
             (Sample.endpoint "vpce-1" "available" [] ["rtb-1"; "rtb-3"] [] defaultPolicy)
             [] _ _ (or_intror eq_refl))).
    right. right. split; [compute_done |]. exists "rtb-2". split; compute_done.
Defined.

(** C1: the counterexample.  The declared subnet [subnet-2] is not
    observed, the observed list repeats [subnet-1], and the lists are
    judged equal: [isUpToDate] returns true, under any comparison that
    finds the default policy to match itself. *)
Lemma isUpToDate_repeated_identifier_counterexample :
  let cr := Sample.resource "vpce-1" [] [] ["subnet-1"; "subnet-2"] None in
  let vpcEndpoint :=
    Sample.endpoint "vpce-1" "available" [] [] ["subnet-1"; "subnet-1"] defaultPolicy in
  let declared := VPCEndpointParameters.SubnetIDs (VPCEndpoint.ForProvider cr) in
  let observed := VpcEndpoint.SubnetIds vpcEndpoint in
  "subnet-2" ∈ ids declared
  ∧ ("subnet-2" ∉ ids observed)
  ∧ listCompareStringPtrIsSame observed declared = true
  ∧ isUpToDate JsonRef.Compare cr (Sample.described [vpcEndpoint]) = Returned (true, None)
  ∧ (∀ Compare : string → string → jsondiff.Difference,
       Compare defaultPolicy defaultPolicy = jsondiff.FullMatch →
       isUpToDate Compare cr (Sample.described [vpcEndpoint]) = Returned (true, None)).
Proof.
  cbv zeta. split; [| split; [| split; [| split]]].
  - compute_done.
  - compute_done.
  - by vm_compute.
  - by vm_compute.
  - intros Compare Hsame. rewrite isUpToDate_lists_pass by (by vm_compute).
    change (upstreamPolicy _) with defaultPolicy.
    change (expectedPolicy _) with defaultPolicy.
    by rewrite Hsame.
Qed.

(** C2: the witness.  No policy is declared, the subnets agree, and the
    observed document is the default policy with a version member and its
    members in another order. *)
Lemma isUpToDate_default_policy_witness :
  let cr := Sample.resource "vpce-1" [] [] ["subnet-1"] None in
  let vpcEndpoint :=
    Sample.endpoint "vpce-1" "available" [] [] ["subnet-1"] Sample.versionedPolicy in
  declaredPolicy cr = ""
  ∧ listChecksPass cr vpcEndpoint = true
  ∧ upstreamPolicy vpcEndpoint ≠ defaultPolicy
  ∧ isUpToDate JsonRef.Compare cr (Sample.described [vpcEndpoint]) = Returned (true, None).
Proof.
  cbv zeta.
  assert (upstreamPolicy
            (Sample.endpoint "vpce-1" "available" [] [] ["subnet-1"] Sample.versionedPolicy)
          ≠ defaultPolicy) as Htext by (vm_compute; discriminate).
  split; [reflexivity |]. split; [by vm_compute |]. split; [exact Htext |].
  destruct (isUpToDate_default_policy JsonRef.Compare
              (Sample.resource "vpce-1" [] [] ["subnet-1"] None)
              (Sample.endpoint "vpce-1" "available" [] [] ["subnet-1"]
                 Sample.versionedPolicy)
              [] eq_refl ltac:(by vm_compute))
    as (upToDate & Hrun & _ & Hsuperset).
  rewrite (Hsuperset Htext ltac:(by vm_compute)) in Hrun. exact Hrun.
Defined.

(** C2: the counterexample.  No policy is declared and the observed
    document is the default policy itself, a full match; the declared
    subnet is not observed, so [isUpToDate] returns false, whatever the
    comparison. *)
Lemma isUpToDate_default_policy_counterexample :
  let cr := Sample.resource "vpce-1" [] [] ["subnet-1"] None in
  let vpcEndpoint := Sample.endpoint "vpce-1" "available" [] [] [] defaultPolicy in
  declaredPolicy cr = ""
  ∧ upstreamPolicy vpcEndpoint = defaultPolicy
  ∧ JsonRef.Compare (upstreamPolicy vpcEndpoint) defaultPolicy = jsondiff.FullMatch
  ∧ isUpToDate JsonRef.Compare cr (Sample.described [vpcEndpoint]) = Returned (false, None)
  ∧ (∀ Compare : string → string → jsondiff.Difference,
       isUpToDate Compare cr (Sample.described [vpcEndpoint]) = Returned (false, None)).
Proof.
  cbv zeta. split; [reflexivity |]. split; [reflexivity |].
  split; [by vm_compute |]. split; [by vm_compute |].
  intros Compare. apply isUpToDate_lists_fail. by vm_compute.
Qed.

(** C3: the witness.  The declared document is the default policy with
    its members in another order: the default policy observed is up to
    date, the versioned one, a superset, is not. *)
Lemma isUpToDate_declared_policy_witness :
  let cr := Sample.resource "vpce-1" [] [] ["subnet-1"] (Some Sample.reorderedPolicy) in
  let same := Sample.endpoint "vpce-1" "available" [] [] ["subnet-1"] defaultPolicy in
  let more :=
    Sample.endpoint "vpce-1" "available" [] [] ["subnet-1"] Sample.versionedPolicy in
  declaredPolicy cr ≠ ""
  ∧ listChecksPass cr same = true
  ∧ listChecksPass cr more = true
  ∧ isUpToDate JsonRef.Compare cr (Sample.described [same]) = Returned (true, None)
  ∧ isUpToDate JsonRef.Compare cr (Sample.described [more]) = Returned (false, None).
Proof.
  cbv zeta.
  assert (declaredPolicy
            (Sample.resource "vpce-1" [] [] ["subnet-1"] (Some Sample.reorderedPolicy))
          ≠ "") as Hdeclared by (vm_compute; discriminate).
  split; [exact Hdeclared |]. split; [by vm_compute |]. split; [by vm_compute |]. split.
  - destruct (isUpToDate_declared_policy JsonRef.Compare
                (Sample.resource "vpce-1" [] [] ["subnet-1"] (Some Sample.reorderedPolicy))
                (Sample.endpoint "vpce-1" "available" [] [] ["subnet-1"] defaultPolicy)
                [] Hdeclared ltac:(by vm_compute))
      as (upToDate & Hrun & Hfull & _).
    rewrite (proj2 Hfull ltac:(by vm_compute)) in Hrun. exact Hrun.
  - destruct (isUpToDate_declared_policy JsonRef.Compare
                (Sample.resource "vpce-1" [] [] ["subnet-1"] (Some Sample.reorderedPolicy))
                (Sample.endpoint "vpce-1" "available" [] [] ["subnet-1"]
                   Sample.versionedPolicy)
                [] Hdeclared ltac:(by vm_compute))
      as (upToDate & Hrun & _ & Hsuperset).
    rewrite (Hsuperset ltac:(by vm_compute)) in Hrun. exact Hrun.
Defined.

(** C4: the witness.  A declared document that is not JSON, and an
    observed document that is not JSON with no policy declared: false
    both times, with a nil error. *)
Lemma isUpToDate_nil_error_witness :
  isUpToDate JsonRef.Compare
    (Sample.resource "vpce-1" [] [] ["subnet-1"] (Some Sample.brokenPolicy))
    (Sample.described
       [Sample.endpoint "vpce-1" "available" [] [] ["subnet-1"] defaultPolicy])
  = Returned (false, None)
  ∧ isUpToDate JsonRef.Compare
      (Sample.resource "vpce-1" [] [] ["subnet-1"] None)
      (Sample.described
         [Sample.endpoint "vpce-1" "available" [] [] ["subnet-1"] Sample.brokenPolicy])
    = Returned (false, None).
Proof.
  split.
  - apply (proj2 (isUpToDate_nil_error JsonRef.Compare
             (Sample.resource "vpce-1" [] [] ["subnet-1"] (Some Sample.brokenPolicy))
             (Sample.endpoint "vpce-1" "available" [] [] ["subnet-1"] defaultPolicy) [])).
    by vm_compute.
  - apply (proj2 (isUpToDate_nil_error JsonRef.Compare
             (Sample.resource "vpce-1" [] [] ["subnet-1"] None)
             (Sample.endpoint "vpce-1" "available" [] [] ["subnet-1"] Sample.brokenPolicy)
             [])).
    by vm_compute.
Defined.

(** ** Observation *)

Lemma find_sameType_app c conds :
  existsb (fun c' => xpv1.sameType c' c) conds = false →
  List.find (fun c' => String.eqb (xpv1.Type_ c') (xpv1.Type_ c)) (conds ++ [c]) = Some c.
Proof.
  induction conds as [|c' conds IH]; simpl.
  - by rewrite String.eqb_refl.
  - unfold xpv1.sameType at 1. intros [-> Hrest]%orb_false_elim. auto.
Qed.

Lemma find_sameType_map c conds :
  existsb (fun c' => xpv1.sameType c' c) conds = true →
  List.find (fun c' => String.eqb (xpv1.Type_ c') (xpv1.Type_ c))
    (map (fun c' => if xpv1.sameType c' c then c else c') conds) = Some c.
Proof.
  induction conds as [|c' conds IH]; simpl; [discriminate |].
  destruct (xpv1.sameType c' c) eqn:Hsame; simpl.
  - by rewrite String.eqb_refl.
  - unfold xpv1.sameType in Hsame. rewrite Hsame. auto.
Qed.

(** After a condition is set it is the condition of its type. *)
Lemma GetCondition_SetConditions c conds :
  xpv1.GetCondition (xpv1.Type_ c) (xpv1.SetConditions [c] conds) = c.
Proof.
  unfold xpv1.GetCondition, xpv1.SetConditions, xpv1.setCondition. simpl.
  destruct (existsb _ conds) eqn:Hexists.
  - by rewrite find_sameType_map.
  - by rewrite find_sameType_app.
Qed.

Lemma lifecycleCondition_ready state c :
  lifecycleCondition state = Some c → xpv1.Type_ c = xpv1.TypeReady.
Proof.
  unfold lifecycleCondition. repeat case_decide; intros [= <-]; reflexivity.
Qed.

Lemma setStateCondition_lifecycle cr state :
  setStateCondition cr state =
  match lifecycleCondition state with
  | Some c => VPCEndpoint.SetConditions cr [c]
  | None => cr
  end.
Proof. unfold setStateCondition. lifecycle_cases state. Qed.

Lemma SetupGo_setStateCondition_lifecycle cr state :
  SetupGo.setStateCondition cr state =
  match lifecycleCondition state with
  | Some c => VPCEndpoint.SetConditions cr [c]
  | None => cr
  end.
Proof. unfold SetupGo.setStateCondition. lifecycle_cases state. Qed.

(** What [postObserve] returns for a response that holds an endpoint with
    a creation timestamp. *)
Lemma postObserve_returns cr vpcEndpoint rest obs creationTimestamp :
  VpcEndpoint.CreationTimestamp vpcEndpoint = Some creationTimestamp →
  ∃ sdk,
    generateVPCEndpointSDK vpcEndpoint = Returned sdk
    ∧ postObserve cr (DescribeVpcEndpointsOutput.mk (vpcEndpoint :: rest)) obs None
      = Returned
          (setStateCondition (VPCEndpoint.setAtProvider cr sdk)
             (StringValue (VpcEndpoint.State vpcEndpoint)),
           loadConnectionDetails vpcEndpoint obs,
           None).
Proof.
  intros Htime. unfold postObserve, generateVPCEndpointSDK. simpl.
  rewrite Htime. simpl. eauto.
Qed.

Lemma SetupGo_postObserve_returns cr vpcEndpoint rest obs :
  SetupGo.postObserve cr (DescribeVpcEndpointsOutput.mk (vpcEndpoint :: rest)) obs None
  = Returned
      (SetupGo.setStateCondition cr (StringValue (VpcEndpoint.State vpcEndpoint)),
       obs, None).
Proof. reflexivity. Qed.

(** The conditions of the resource after the state [state] was mapped. *)
Lemma mapped_conditions cr cr' state :
  cr' = match lifecycleCondition state with
        | Some c => VPCEndpoint.SetConditions cr [c]
        | None => cr
        end →
  match lifecycleCondition state with
  | Some c =>
      VPCEndpoint.Conditions cr' = xpv1.SetConditions [c] (VPCEndpoint.Conditions cr)
      ∧ VPCEndpoint.GetCondition cr' xpv1.TypeReady = c
  | None => VPCEndpoint.Conditions cr' = VPCEndpoint.Conditions cr
  end.
Proof.
  intros ->. destruct (lifecycleCondition state) as [c|] eqn:Hstate; [| done].
  split; [done |]. unfold VPCEndpoint.GetCondition. simpl.
  rewrite <- (lifecycleCondition_ready _ _ Hstate). apply GetCondition_SetConditions.
Qed.

(** C5.  For a response whose first endpoint carries its creation
    timestamp, [postObserve], in both revisions, returns with a nil error
    and maps the state of that endpoint: [available] sets Available,
    [pending] and [pending-acceptance] set Creating, [deleting] sets
    Deleting, [deleted] sets Unavailable, and under any other state the
    conditions are the ones the resource had. *)
Theorem postObserve_condition_mapping cr vpcEndpoint rest obs creationTimestamp :
  VpcEndpoint.CreationTimestamp vpcEndpoint = Some creationTimestamp →
  let resp := DescribeVpcEndpointsOutput.mk (vpcEndpoint :: rest) in
  let state := StringValue (VpcEndpoint.State vpcEndpoint) in
  ∃ cr' obs' cr0,
    postObserve cr resp obs None = Returned (cr', obs', None)
    ∧ SetupGo.postObserve cr resp obs None = Returned (cr0, obs, None)
    ∧ ∀ after, after = cr' ∨ after = cr0 →
        match lifecycleCondition state with
        | Some c =>
            VPCEndpoint.Conditions after
            = xpv1.SetConditions [c] (VPCEndpoint.Conditions cr)
            ∧ VPCEndpoint.GetCondition after xpv1.TypeReady = c
        | None => VPCEndpoint.Conditions after = VPCEndpoint.Conditions cr
        end.
Proof.
  intros Htime resp state.
  destruct (postObserve_returns cr vpcEndpoint rest obs _ Htime) as (sdk & _ & Hrun).
  eexists _, _, _. split; [exact Hrun |]. split; [apply SetupGo_postObserve_returns |].
  intros after [-> | ->].
  - apply (mapped_conditions (VPCEndpoint.setAtProvider cr sdk)).
    apply setStateCondition_lifecycle.
  - apply mapped_conditions, SetupGo_setStateCondition_lifecycle.
Qed.

(** C5: the witness.  An endpoint pending acceptance sets Creating, a
    deleted one sets Unavailable, and under a state outside the list the
    resource keeps its conditions. *)
Lemma postObserve_condition_mapping_witness :
  let cr := Sample.resource "vpce-1" [] [] ["subnet-1"] None in
  let observe state :=
    postObserve cr
      (Sample.described [Sample.endpoint "vpce-1" state [] [] ["subnet-1"] defaultPolicy])
      managed.zeroObservation None in
  (∃ cr' obs', observe "pending-acceptance" = Returned (cr', obs', None)
               ∧ VPCEndpoint.GetCondition cr' xpv1.TypeReady = xpv1.Creating)
  ∧ (∃ cr' obs', observe "deleted" = Returned (cr', obs', None)
                 ∧ VPCEndpoint.GetCondition cr' xpv1.TypeReady = xpv1.Unavailable)
  ∧ (∃ cr' obs', observe "rejected" = Returned (cr', obs', None)
                 ∧ VPCEndpoint.Conditions cr' = VPCEndpoint.Conditions cr).
Proof.
  cbv zeta. repeat split.
  - destruct (postObserve_condition_mapping
                (Sample.resource "vpce-1" [] [] ["subnet-1"] None)
                (Sample.endpoint "vpce-1" "pending-acceptance" [] [] ["subnet-1"]
                   defaultPolicy)
                [] managed.zeroObservation _ eq_refl)
      as (cr' & obs' & cr0 & Hrun & _ & Hmap).
    exists cr', obs'. split; [exact Hrun |].
    exact (proj2 (Hmap cr' (or_introl eq_refl))).
  - destruct (postObserve_condition_mapping
                (Sample.resource "vpce-1" [] [] ["subnet-1"] None)
                (Sample.endpoint "vpce-1" "deleted" [] [] ["subnet-1"] defaultPolicy)
                [] managed.zeroObservation _ eq_refl)
      as (cr' & obs' & cr0 & Hrun & _ & Hmap).
    exists cr', obs'. split; [exact Hrun |].
    exact (proj2 (Hmap cr' (or_introl eq_refl))).
  - destruct (postObserve_condition_mapping
                (Sample.resource "vpce-1" [] [] ["subnet-1"] None)
                (Sample.endpoint "vpce-1" "rejected" [] [] ["subnet-1"] defaultPolicy)
                [] managed.zeroObservation _ eq_refl)
      as (cr' & obs' & cr0 & Hrun & _ & Hmap).
    exists cr', obs'. split; [exact Hrun |].
    exact (Hmap cr' (or_introl eq_refl)).
Defined.

Lemma loadConnectionDetails_primary vpcEndpoint obs dnsEntry :
  primaryDnsEntry vpcEndpoint dnsEntry →
  managed.ConnectionDetails (loadConnectionDetails vpcEndpoint obs)
  = {[ xpv1.ResourceCredentialsSecretEndpointKey :=
         list_byte_of_string (StringValue (DnsEntry.DnsName dnsEntry)) ]}.
Proof.
  intros [[others Hentries] Hname]. unfold loadConnectionDetails. rewrite Hentries.
  by rewrite (proj2 (String.eqb_neq _ _) Hname).
Qed.

Lemma loadConnectionDetails_none vpcEndpoint obs :
  (∀ dnsEntry, ¬ primaryDnsEntry vpcEndpoint dnsEntry) →
  loadConnectionDetails vpcEndpoint obs = obs.
Proof.
  intros Hnone. unfold loadConnectionDetails.
  destruct (VpcEndpoint.DnsEntries vpcEndpoint) as [|dnsEntry others] eqn:Hentries;
    [done |].
  destruct (String.eqb_spec (StringValue (DnsEntry.DnsName dnsEntry)) "") as [|Hname];
    [done |].
  destruct (Hnone dnsEntry). split; eauto.
Qed.

(** C6.  For a response whose first endpoint carries its creation
    timestamp, and an observation that comes in without connection
    details, [postObserve] returns with a nil error; the details it
    returns map the endpoint key to the name of the first DNS entry when
    there is a first entry and its name is not empty, and are empty
    otherwise. *)
Theorem postObserve_connection_details cr vpcEndpoint rest obs creationTimestamp :
  VpcEndpoint.CreationTimestamp vpcEndpoint = Some creationTimestamp →
  managed.ConnectionDetails obs = ∅ →
  ∃ cr' obs',
    postObserve cr (DescribeVpcEndpointsOutput.mk (vpcEndpoint :: rest)) obs None
    = Returned (cr', obs', None)
    ∧ (∀ dnsEntry, primaryDnsEntry vpcEndpoint dnsEntry →
         managed.ConnectionDetails obs'
         = {[ xpv1.ResourceCredentialsSecretEndpointKey :=
                list_byte_of_string (StringValue (DnsEntry.DnsName dnsEntry)) ]})
    ∧ ((∀ dnsEntry, ¬ primaryDnsEntry vpcEndpoint dnsEntry) →
         managed.ConnectionDetails obs' = ∅)
    ∧ (managed.ConnectionDetails obs' ≠ ∅ ↔ ∃ dnsEntry, primaryDnsEntry vpcEndpoint dnsEntry).
Proof.
  intros Htime Hempty.
  destruct (postObserve_returns cr vpcEndpoint rest obs _ Htime) as (sdk & _ & Hrun).
  eexists _, _. split; [exact Hrun |].
  split; [intros; by apply loadConnectionDetails_primary |].
  split; [intros Hnone; by rewrite loadConnectionDetails_none |].
  split.
  - intros Hpopulated. unfold loadConnectionDetails in Hpopulated.
    destruct (VpcEndpoint.DnsEntries vpcEndpoint) as [|dnsEntry others] eqn:Hentries;
      [done |].
    destruct (String.eqb_spec (StringValue (DnsEntry.DnsName dnsEntry)) "") as [|Hname];
      [done |].
    exists dnsEntry. split; eauto.
  - intros [dnsEntry Hprimary].
    rewrite (loadConnectionDetails_primary _ _ _ Hprimary).
    apply insert_non_empty.
Qed.

(** C6: the witness.  An endpoint with two DNS entries yields the name of
    the first one. *)
Lemma postObserve_connection_details_witness :
  let cr := Sample.resource "vpce-1" [] [] ["subnet-1"] None in
  let vpcEndpoint :=
    Sample.withDns
      (Sample.endpoint "vpce-1" "available" [] [] ["subnet-1"] defaultPolicy)
      ["vpce-1.ec2.vpce.amazonaws.com"; "vpce-1-a.ec2.vpce.amazonaws.com"] in
  managed.ConnectionDetails managed.zeroObservation = ∅
  ∧ ∃ cr' obs',
      postObserve cr (Sample.described [vpcEndpoint]) managed.zeroObservation None
      = Returned (cr', obs', None)
      ∧ managed.ConnectionDetails obs'
        = {[ "endpoint" := list_byte_of_string "vpce-1.ec2.vpce.amazonaws.com" ]}.
Proof.
  cbv zeta. split; [reflexivity |].
  destruct (postObserve_connection_details
              (Sample.resource "vpce-1" [] [] ["subnet-1"] None)
              (Sample.withDns
                 (Sample.endpoint "vpce-1" "available" [] [] ["subnet-1"] defaultPolicy)
                 ["vpce-1.ec2.vpce.amazonaws.com"; "vpce-1-a.ec2.vpce.amazonaws.com"])
              [] managed.zeroObservation _ eq_refl eq_refl)
    as (cr' & obs' & Hrun & Hprimary & _).
  exists cr', obs'. split; [exact Hrun |].
  apply (Hprimary (DnsEntry.mk (Some "vpce-1.ec2.vpce.amazonaws.com") None)).
  split; [by eexists | discriminate].
Defined.

(** ** Creation *)

(** C7.  With an error, or with a response that carries no endpoint,
    [postCreate] leaves the resource as it was, returns the zero creation,
    whose external name is not marked assigned, and returns the error it
    received; with a nil error and an endpoint it sets the external name
    to the identifier of the endpoint and marks it assigned. *)
Theorem postCreate_assigns_identifier cr obj cre err :
  (err ≠ None ∨ CreateVpcEndpointOutput.VpcEndpoint obj = None →
   postCreate cr obj cre err = (cr, managed.zeroCreation, err)
   ∧ managed.ExternalNameAssigned managed.zeroCreation = false)
  ∧ (∀ vpcEndpoint,
       err = None → CreateVpcEndpointOutput.VpcEndpoint obj = Some vpcEndpoint →
       ∃ cr' cre',
         postCreate cr obj cre err = (cr', cre', None)
         ∧ cr' = meta.SetExternalName cr
                   (StringValue (VpcEndpoint.VpcEndpointId vpcEndpoint))
         ∧ meta.GetExternalName cr' = StringValue (VpcEndpoint.VpcEndpointId vpcEndpoint)
         ∧ managed.ExternalNameAssigned cre' = true).
Proof.
  split.
  - intros Hfail. split; [| reflexivity]. unfold postCreate.
    destruct err as [e|]; [reflexivity |].
    destruct Hfail as [Herr | ->]; [done | reflexivity].
  - intros vpcEndpoint -> Hpayload. unfold postCreate. rewrite Hpayload.
    eexists _, _. repeat split.
    unfold meta.GetExternalName, meta.SetExternalName. simpl.
    by rewrite lookup_insert_eq.
Qed.

(** C7: the witness.  A transport error, and a response without an
    endpoint, leave the external name of the resource as it was; an
    endpoint sets it. *)
Lemma postCreate_assigns_identifier_witness :
  let cr := Sample.resource "vpc-endpoint-a" [] [] ["subnet-1"] None in
  let created :=
    CreateVpcEndpointOutput.mk
      (Some (Sample.endpoint "vpce-1" "pending" [] [] ["subnet-1"] defaultPolicy)) in
  postCreate cr created managed.zeroCreation (Some "RequestLimitExceeded")
  = (cr, managed.zeroCreation, Some "RequestLimitExceeded")
  ∧ postCreate cr (CreateVpcEndpointOutput.mk None) (managed.mkExternalCreation true ∅) None
    = (cr, managed.zeroCreation, None)
  ∧ ∃ cr' cre', postCreate cr created managed.zeroCreation None = (cr', cre', None)
                ∧ meta.GetExternalName cr' = "vpce-1".
Proof.
  cbv zeta. split; [| split].
  - apply (proj1 (postCreate_assigns_identifier _ _ _ _)). by left.
  - apply (proj1 (postCreate_assigns_identifier _ _ _ _)). by right.
  - destruct (proj2 (postCreate_assigns_identifier
                       (Sample.resource "vpc-endpoint-a" [] [] ["subnet-1"] None)
                       (CreateVpcEndpointOutput.mk
                          (Some (Sample.endpoint "vpce-1" "pending" [] [] ["subnet-1"]
                                   defaultPolicy)))
                       managed.zeroCreation None)
                _ eq_refl eq_refl)
      as (cr' & cre' & Hrun & _ & Hname & _).
    exists cr', cre'. split; [exact Hrun | exact Hname].
Defined.

Lemma normalized_preCreate (declared before : slice (option string)) :
  normalized declared before
    (if is_nil declared || Nat.eqb (len declared) 0 then None else before).
Proof.
  unfold normalized. destruct declared as [[|x l]|]; simpl; split; done.
Qed.

(** C9.  [preCreate] returns a nil error; the tag specifications of the
    request are the ones it had followed by one for the endpoint with the
    tag [Name] set to the external name of the resource; and the security
    groups, route tables and subnets of the request are absent when the
    declared list is nil or empty, and as they were otherwise. *)
Theorem preCreate_shapes_request cr obj :
  ∃ obj',
    preCreate cr obj = (obj', None)
    ∧ CreateVpcEndpointInput.TagSpecifications obj'
      = CreateVpcEndpointInput.TagSpecifications obj
        ++ [TagSpecification.mk (Some "vpc-endpoint")
              [Tag.mk (Some "Name") (Some (meta.GetExternalName cr))]]
    ∧ normalized (VPCEndpointParameters.SecurityGroupIDs (VPCEndpoint.ForProvider cr))
        (CreateVpcEndpointInput.SecurityGroupIds obj)
        (CreateVpcEndpointInput.SecurityGroupIds obj')
    ∧ normalized (VPCEndpointParameters.RouteTableIDs (VPCEndpoint.ForProvider cr))
        (CreateVpcEndpointInput.RouteTableIds obj)
        (CreateVpcEndpointInput.RouteTableIds obj')
    ∧ normalized (VPCEndpointParameters.SubnetIDs (VPCEndpoint.ForProvider cr))
        (CreateVpcEndpointInput.SubnetIds obj)
        (CreateVpcEndpointInput.SubnetIds obj').
Proof.
  eexists. split; [reflexivity |]. simpl.
  split; [reflexivity |]. repeat split; apply normalized_preCreate.
Qed.

(** C9: the witness.  The resource declares one subnet, an empty list of
    route tables and no security groups; the request arrives with three
    lists that are not nil. *)
Lemma preCreate_shapes_request_witness :
  let cr :=
    VPCEndpoint.mk {[ meta.AnnotationKeyExternalName := "vpc-endpoint-a" ]}
      (VPCEndpointParameters.mk None (Some []) (Sample.strs ["subnet-1"]) None)
      None [] in
  let obj :=
    CreateVpcEndpointInput.mk (Some []) (Some []) (Sample.strs ["subnet-1"]) [] in
  ∃ obj',
    preCreate cr obj = (obj', None)
    ∧ CreateVpcEndpointInput.SecurityGroupIds obj' = None
    ∧ CreateVpcEndpointInput.RouteTableIds obj' = None
    ∧ CreateVpcEndpointInput.SubnetIds obj' = Sample.strs ["subnet-1"]
    ∧ CreateVpcEndpointInput.TagSpecifications obj'
      = [TagSpecification.mk (Some "vpc-endpoint")
           [Tag.mk (Some "Name") (Some "vpc-endpoint-a")]].
Proof.
  cbv zeta.
  destruct (preCreate_shapes_request
              (VPCEndpoint.mk {[ meta.AnnotationKeyExternalName := "vpc-endpoint-a" ]}
                 (VPCEndpointParameters.mk None (Some []) (Sample.strs ["subnet-1"]) None)
                 None [])
              (CreateVpcEndpointInput.mk (Some []) (Some []) (Sample.strs ["subnet-1"]) []))
    as (obj' & Hrun & Htags & [Hgroups _] & [Htables _] & [_ Hsubnets]).
  exists obj'. split; [exact Hrun |].
  split; [by apply Hgroups |]. split; [by apply Htables |].
  split; [by apply Hsubnets | exact Htags].
Defined.

(** ** Filtering the described endpoints *)

Lemma filterLoop_cons connectionIdentifier vpcEndpoint vpcEndpoints found :
  filterLoop connectionIdentifier (vpcEndpoint :: vpcEndpoints) found
  = if String.eqb (StringValue (VpcEndpoint.VpcEndpointId vpcEndpoint))
                  (StringValue connectionIdentifier)
    then found ++ [vpcEndpoint]
    else filterLoop connectionIdentifier vpcEndpoints found.
Proof. reflexivity. Qed.

Lemma filterLoop_first cr before vpcEndpoint after found :
  Forall (λ e, ¬ addressedBy cr e) before →
  addressedBy cr vpcEndpoint →
  filterLoop (Some (meta.GetExternalName cr)) (before ++ vpcEndpoint :: after) found
  = found ++ [vpcEndpoint].
Proof.
  intros Hbefore Hmatch.
  induction Hbefore as [|e before Hno _ IH];
    [change ([] ++ vpcEndpoint :: after) with (vpcEndpoint :: after)
    |change ((e :: before) ++ vpcEndpoint :: after)
       with (e :: (before ++ vpcEndpoint :: after))];
    rewrite filterLoop_cons;
    match goal with
    | |- context [String.eqb ?a ?b] => destruct (String.eqb_spec a b) as [Heq | Hne]
    end; done.
Qed.

Lemma filterLoop_none cr vpcEndpoints found :
  Forall (λ e, ¬ addressedBy cr e) vpcEndpoints →
  filterLoop (Some (meta.GetExternalName cr)) vpcEndpoints found = found.
Proof.
  induction 1 as [|e vpcEndpoints Hno _ IH]; [done |].
  rewrite filterLoop_cons.
  match goal with
  | |- context [String.eqb ?a ?b] => destruct (String.eqb_spec a b) as [Heq | Hne]
  end; done.
Qed.

(** A list of endpoints has a first endpoint that the resource addresses,
    or none. *)
Lemma first_addressed cr vpcEndpoints :
  (∃ before vpcEndpoint after,
     vpcEndpoints = before ++ vpcEndpoint :: after
     ∧ Forall (λ e, ¬ addressedBy cr e) before
     ∧ addressedBy cr vpcEndpoint)
  ∨ Forall (λ e, ¬ addressedBy cr e) vpcEndpoints.
Proof.
  induction vpcEndpoints as [|e vpcEndpoints IH]; [by right |].
  destruct (decide (StringValue (VpcEndpoint.VpcEndpointId e) = meta.GetExternalName cr))
    as [Hmatch | Hno].
  - left. by exists [], e, vpcEndpoints.
  - destruct IH as [(before & vpcEndpoint & after & -> & Hbefore & Hmatch) | Hnone].
    + left. exists (e :: before), vpcEndpoint, after. by repeat constructor.
    + right. by constructor.
Qed.

(** C8.  The response [filterList] returns holds at most one endpoint,
    taken from the response it was given: the first one whose identifier
    is the external name of the resource, whatever follows it, and none
    when no identifier is the external name. *)
Theorem filterList_first_match cr obj :
  let found := DescribeVpcEndpointsOutput.VpcEndpoints (filterList cr obj) in
  (length found ≤ 1)%nat
  ∧ (∀ before vpcEndpoint after,
       DescribeVpcEndpointsOutput.VpcEndpoints obj = before ++ vpcEndpoint :: after →
       Forall (λ e, ¬ addressedBy cr e) before →
       addressedBy cr vpcEndpoint →
       found = [vpcEndpoint])
  ∧ (Forall (λ e, ¬ addressedBy cr e) (DescribeVpcEndpointsOutput.VpcEndpoints obj) →
     found = [])
  ∧ (∀ vpcEndpoint,
       vpcEndpoint ∈ found →
       vpcEndpoint ∈ DescribeVpcEndpointsOutput.VpcEndpoints obj
       ∧ addressedBy cr vpcEndpoint).
Proof.
  unfold filterList. simpl.
  assert (∀ before vpcEndpoint after,
            DescribeVpcEndpointsOutput.VpcEndpoints obj = before ++ vpcEndpoint :: after →
            Forall (λ e, ¬ addressedBy cr e) before →
            addressedBy cr vpcEndpoint →
            filterLoop (Some (meta.GetExternalName cr))
              (DescribeVpcEndpointsOutput.VpcEndpoints obj) [] = [vpcEndpoint]) as Hfirst.
  { intros before vpcEndpoint after -> Hbefore Hmatch. by apply filterLoop_first. }
  destruct (first_addressed cr (DescribeVpcEndpointsOutput.VpcEndpoints obj))
    as [(before & vpcEndpoint & after & Hsplit & Hbefore & Hmatch) | Hnone].
  - pose proof (Hfirst _ _ _ Hsplit Hbefore Hmatch) as Hrun.
    split; [rewrite Hrun; simpl; lia |]. split; [exact Hfirst |]. split.
    + rewrite Hsplit. intros Hnone. apply Forall_app in Hnone as [_ Hnone].
      by inversion Hnone.
    + rewrite Hrun. intros e ->%list_elem_of_singleton. split; [| done].
      rewrite Hsplit. set_solver.
  - rewrite (filterLoop_none _ _ _ Hnone). split; [simpl; lia |].
    split; [| split; [done | intros e He; inversion He]].
    intros before vpcEndpoint after Hsplit _ Hmatch. rewrite Hsplit in Hnone.
    apply Forall_app in Hnone as [_ Hnone]. by inversion Hnone.
Qed.

(** C8: the witness.  Of three described endpoints the second and the
    third carry the external name; the second one is returned.  With
    another external name nothing is returned. *)
Lemma filterList_first_match_witness :
  let first := Sample.endpoint "vpce-0" "available" [] [] [] defaultPolicy in
  let second := Sample.endpoint "vpce-1" "available" [] [] [] defaultPolicy in
  let third := Sample.endpoint "vpce-1" "deleting" [] [] [] defaultPolicy in
  filterList (Sample.resource "vpce-1" [] [] [] None)
    (Sample.described [first; second; third])
  = Sample.described [second]
  ∧ filterList (Sample.resource "vpce-2" [] [] [] None)
      (Sample.described [first; second; third])
    = Sample.described [].
Proof.
  cbv zeta. split.
  - destruct (filterList _ _) as [found] eqn:Hrun. unfold Sample.described. f_equal.
    change found with (DescribeVpcEndpointsOutput.VpcEndpoints
                         (DescribeVpcEndpointsOutput.mk found)).
    rewrite <- Hrun.
    apply (proj1 (proj2 (filterList_first_match _ _))
             [Sample.endpoint "vpce-0" "available" [] [] [] defaultPolicy] _
             [Sample.endpoint "vpce-1" "deleting" [] [] [] defaultPolicy]).
    + reflexivity.
    + repeat constructor. unfold addressedBy. by vm_compute.
    + reflexivity.
  - destruct (filterList _ _) as [found] eqn:Hrun. unfold Sample.described. f_equal.
    change found with (DescribeVpcEndpointsOutput.VpcEndpoints
                         (DescribeVpcEndpointsOutput.mk found)).
    rewrite <- Hrun.
    apply (proj1 (proj2 (proj2 (filterList_first_match _ _)))).
    repeat constructor; unfold addressedBy; by vm_compute.
Defined.

(** ** The domain of [postObserve] *)

(** C10.  With a nil error and a response without endpoints [postObserve]
    panics, in both revisions; this is the response [filterList] returns
    when no described endpoint carries the external name.  So a call with
    a nil error that returns was given at least one endpoint.  With an
    error [postObserve] returns the error and reads no endpoint. *)
Theorem postObserve_needs_endpoint cr resp obs :
  (DescribeVpcEndpointsOutput.VpcEndpoints resp = [] →
   postObserve cr resp obs None = Panicked
   ∧ SetupGo.postObserve cr resp obs None = Panicked)
  ∧ (Forall (λ e, ¬ addressedBy cr e) (DescribeVpcEndpointsOutput.VpcEndpoints resp) →
     postObserve cr (filterList cr resp) obs None = Panicked
     ∧ SetupGo.postObserve cr (filterList cr resp) obs None = Panicked)
  ∧ (∀ result,
       postObserve cr resp obs None = Returned result
       ∨ SetupGo.postObserve cr resp obs None = Returned result →
       DescribeVpcEndpointsOutput.VpcEndpoints resp ≠ [])
  ∧ (∀ e,
       postObserve cr resp obs (Some e) = Returned (cr, managed.zeroObservation, Some e)
       ∧ SetupGo.postObserve cr resp obs (Some e)
         = Returned (cr, managed.zeroObservation, Some e)).
Proof.
  assert (∀ r, DescribeVpcEndpointsOutput.VpcEndpoints r = [] →
               postObserve cr r obs None = Panicked
               ∧ SetupGo.postObserve cr r obs None = Panicked) as Hempty.
  { intros r Hnone. unfold postObserve, SetupGo.postObserve. by rewrite Hnone. }
  split; [apply Hempty |]. split.
  - intros Hnone. apply Hempty. unfold filterList. simpl. by apply filterLoop_none.
  - split; [| done].
    intros result Hrun Hnone. destruct (Hempty resp Hnone) as [H1 H2].
    rewrite H1, H2 in Hrun. by destruct Hrun.
Qed.

(** C10: the witness.  No described endpoint carries the external name of
    the resource: the filtered response is empty and [postObserve] panics
    on it. *)
Lemma postObserve_needs_endpoint_witness :
  let cr := Sample.resource "vpce-2" [] [] [] None in
  let resp :=
    Sample.described [Sample.endpoint "vpce-1" "available" [] [] [] defaultPolicy] in
  DescribeVpcEndpointsOutput.VpcEndpoints (filterList cr resp) = []
  ∧ postObserve cr (filterList cr resp) managed.zeroObservation None = Panicked.
Proof.
  cbv zeta. split; [reflexivity |].
  apply (proj1 (proj2 (postObserve_needs_endpoint _ _ _))).
  repeat constructor. unfold addressedBy. by vm_compute.
Defined.

(** ** The earlier revision

    Where the hooks of [setup.go] differ from the later ones. *)

(** Its drift detection is the stub: every resource is up to date. *)
Remark SetupGo_isUpToDate_stub cr obj :
  SetupGo.isUpToDate cr obj = Returned (true, None).
Proof. reflexivity. Qed.

(** Its [postCreate] tests the error only: a response without an endpoint
    is dereferenced. *)
Remark SetupGo_postCreate_without_endpoint cr cre :
  SetupGo.postCreate cr (CreateVpcEndpointOutput.mk None) cre None = Panicked.
Proof. reflexivity. Qed.

(** With an error, or with an endpoint, both revisions of [postCreate]
    agree. *)
Remark SetupGo_postCreate_agrees cr obj cre err :
  err ≠ None ∨ CreateVpcEndpointOutput.VpcEndpoint obj ≠ None →
  SetupGo.postCreate cr obj cre err = Returned (postCreate cr obj cre err).
Proof.
  unfold SetupGo.postCreate, postCreate.
  destruct err as [e|], (CreateVpcEndpointOutput.VpcEndpoint obj) as [vpcEndpoint|];
    intros [?|?]; done.
Qed.

(** Its [preCreate] appends the tag specification and leaves the three
    lists of the request as they are. *)
Remark SetupGo_preCreate_keeps_lists cr obj :
  SetupGo.preCreate cr obj
  = (CreateVpcEndpointInput.mk
       (CreateVpcEndpointInput.SecurityGroupIds obj)
       (CreateVpcEndpointInput.RouteTableIds obj)
       (CreateVpcEndpointInput.SubnetIds obj)
       (CreateVpcEndpointInput.TagSpecifications (preCreate cr obj).1),
     None).
Proof. reflexivity. Qed.

(** Its [postObserve] returns the observation it was given, connection
    details included, and leaves [Status.AtProvider] alone. *)
Remark SetupGo_postObserve_keeps_observation cr resp obs cr' obs' err' :
  SetupGo.postObserve cr resp obs None = Returned (cr', obs', err') →
  obs' = obs ∧ VPCEndpoint.AtProvider cr' = VPCEndpoint.AtProvider cr.
Proof.
  unfold SetupGo.postObserve.
  destruct (DescribeVpcEndpointsOutput.VpcEndpoints resp) as [|vpcEndpoint rest];
    [discriminate |].
  intros [= <- <- _]. split; [done |].
  rewrite SetupGo_setStateCondition_lifecycle.
  by destruct (lifecycleCondition _).
Qed.

(** * Further properties of the hooks *)

(** ** Subtraction of identifier lists *)

Lemma foundIn_false_iff elemA listB :
  foundIn elemA listB = false ↔ StringValue elemA ∉ StringValue <$> listB.
Proof.
  rewrite <- foundIn_elem_of. destruct (foundIn elemA listB); split; done.
Qed.

Lemma filter_keeps_all {A} (P : A → Prop) `{!∀ x, Decision (P x)} (l : list A) :
  Forall P l → filter P l = l.
Proof.
  induction 1 as [|x l Hx _ IH]; [done |]. by rewrite filter_cons_True, IH.
Qed.

Lemma filter_keeps_none {A} (P : A → Prop) `{!∀ x, Decision (P x)} (l : list A) :
  Forall (λ x, ¬ P x) l → filter P l = [].
Proof.
  induction 1 as [|x l Hx _ IH]; [done |]. by rewrite filter_cons_False.
Qed.

Lemma subtractLoop_filter base subtract result :
  subtractLoop base subtract result
  = result ++ filter (λ b, StringValue b ∉ StringValue <$> subtract) base.
Proof.
  revert result. induction base as [|baseElem base IH]; intros result; simpl.
  - by rewrite app_nil_r.
  - destruct (foundIn baseElem subtract) eqn:Hfound.
    + apply foundIn_elem_of in Hfound. rewrite IH.
      by rewrite filter_cons_False by (intros Hno; by apply Hno).
    + apply foundIn_false_iff in Hfound. rewrite IH.
      by rewrite filter_cons_True, <- app_assoc by done.
Qed.

(** X1.  The result of [listSubtractFromStringPtr] is never nil; it holds
    the elements of [base] whose string does not occur in [subtract], in
    the order and as often as [base] holds them.  So a string is in the
    result exactly when it is in [base] and not in [subtract]. *)
Theorem listSubtractFromStringPtr_filter base subtract :
  ∃ result,
    listSubtractFromStringPtr base subtract = Some result
    ∧ result = filter (λ b, StringValue b ∉ ids subtract) (elems base)
    ∧ result `sublist_of` elems base
    ∧ ∀ x, x ∈ StringValue <$> result ↔ x ∈ ids base ∧ x ∉ ids subtract.
Proof.
  eexists. split; [reflexivity |].
  rewrite subtractLoop_filter. simpl. split; [reflexivity |].
  split; [apply sublist_filter |].
  intros x. unfold ids. split.
  - intros (b & -> & [Hno Hb]%list_elem_of_filter)%list_elem_of_fmap.
    split; [apply list_elem_of_fmap; eauto | done].
  - intros [(b & -> & Hb)%list_elem_of_fmap Hno]. apply list_elem_of_fmap.
    exists b. split; [done |]. by apply list_elem_of_filter.
Qed.

(** X1: the witness, the example of the documentation of the function. *)
Lemma listSubtractFromStringPtr_filter_witness :
  listSubtractFromStringPtr (Sample.strs ["a"; "b"; "g"; "x"]) (Sample.strs ["b"; "x"; "y"])
  = Sample.strs ["a"; "g"].
Proof.
  destruct (listSubtractFromStringPtr_filter
              (Sample.strs ["a"; "b"; "g"; "x"]) (Sample.strs ["b"; "x"; "y"]))
    as (result & -> & -> & _).
  by vm_compute.
Defined.

Lemma subtract_nothing_left base subtract :
  (∀ x, x ∈ ids base → x ∈ ids subtract) ↔
  listSubtractFromStringPtr base subtract = Some [].
Proof.
  unfold listSubtractFromStringPtr. rewrite subtractLoop_filter. simpl.
  unfold ids. split.
  - intros Hsub. f_equal. apply filter_keeps_none, Forall_forall.
    intros b Hb Hno. apply Hno, Hsub, list_elem_of_fmap. eauto.
  - intros [= Hnil] x (b & -> & Hb)%list_elem_of_fmap.
    destruct (decide (StringValue b ∈ StringValue <$> elems subtract)) as [|Hno];
      [done |].
    assert (b ∈ filter (λ b, StringValue b ∉ StringValue <$> elems subtract)
                       (elems base)) as Hin by by apply list_elem_of_filter.
    rewrite Hnil in Hin. inversion Hin.
Qed.

(** X2.  Subtracting nothing returns the elements of [base], in a slice
    that is not nil even when [base] is; subtracting a list from itself
    leaves the empty slice; and subtracting the same list a second time
    changes nothing. *)
Theorem listSubtractFromStringPtr_laws base subtract :
  (elems subtract = [] → listSubtractFromStringPtr base subtract = Some (elems base))
  ∧ listSubtractFromStringPtr base base = Some []
  ∧ listSubtractFromStringPtr (listSubtractFromStringPtr base subtract) subtract
    = listSubtractFromStringPtr base subtract.
Proof.
  split; [| split].
  - intros Hnone. unfold listSubtractFromStringPtr. rewrite subtractLoop_filter, Hnone.
    simpl. f_equal. apply filter_keeps_all, Forall_forall. intros b _ Hin. inversion Hin.
  - by apply subtract_nothing_left.
  - unfold listSubtractFromStringPtr. rewrite !subtractLoop_filter. simpl.
    f_equal. apply list_filter_filter_l. done.
Qed.

(** X2: the witness, with a nil [base] and a nil [subtract]. *)
Lemma listSubtractFromStringPtr_laws_witness :
  listSubtractFromStringPtr None None = Some [].
Proof.
  apply (proj1 (listSubtractFromStringPtr_laws None None)). reflexivity.
Defined.

(** X3.  The lists are judged the same exactly when they are as long as
    each other and subtracting the second from the first leaves nothing;
    and when the first holds no string twice, subtracting the first from
    the second leaves nothing either. *)
Theorem listCompare_subtract listA listB :
  (listCompareStringPtrIsSame listA listB = true ↔
   len listA = len listB ∧ listSubtractFromStringPtr listA listB = Some [])
  ∧ (NoDup (ids listA) → listCompareStringPtrIsSame listA listB = true →
     listSubtractFromStringPtr listB listA = Some []).
Proof.
  split.
  - rewrite listCompare_true_iff, subtract_nothing_left. done.
  - intros Hnodup Hsame. apply subtract_nothing_left. intros x.
    by rewrite (listCompare_true_NoDup _ _ Hnodup Hsame).
Qed.

(** X3: the witness. *)
Lemma listCompare_subtract_witness :
  listSubtractFromStringPtr (Sample.strs ["rtb-2"; "rtb-1"]) (Sample.strs ["rtb-1"; "rtb-2"])
  = Some [].
Proof.
  apply (proj2 (listCompare_subtract (Sample.strs ["rtb-1"; "rtb-2"])
                  (Sample.strs ["rtb-2"; "rtb-1"]))).
  - compute_done.
  - by vm_compute.
Defined.

(** ** Shaping of the modify request *)

Lemma nilIfEmpty_absentOrFilled l : absentOrFilled (nilIfEmpty l).
Proof.
  unfold absentOrFilled, nilIfEmpty.
  destruct (Nat.eqb_spec (len l) 0); [by left | by right].
Qed.

Lemma nilIfEmpty_elems l : elems (nilIfEmpty l) = elems l.
Proof.
  unfold nilIfEmpty. destruct (Nat.eqb_spec (len l) 0) as [Hempty|]; [| done].
  unfold len in Hempty. by destruct (elems l).
Qed.

Lemma nilIfEmpty_idem l : nilIfEmpty (nilIfEmpty l) = nilIfEmpty l.
Proof.
  unfold nilIfEmpty at 2 3. destruct (Nat.eqb_spec (len l) 0) as [|Hfilled]; [done |].
  unfold nilIfEmpty. by rewrite (proj2 (Nat.eqb_neq _ _) Hfilled).
Qed.

Section UpdateShapingFacts.

Variable TrimSpace : string -> string.

(** X4.  After [formatModifyVpcEndpointInput] none of the six lists of
    the request is an empty list: each is nil or holds the elements it
    held.  The identifier of the endpoint is kept.  The policy document
    is nil when all of it is trimmed away, and kept otherwise. *)
Theorem formatModifyVpcEndpointInput_shape obj :
  let obj' := formatModifyVpcEndpointInput TrimSpace obj in
  Forall absentOrFilled (deltas obj')
  ∧ Forall2 (λ before after, elems after = elems before) (deltas obj) (deltas obj')
  ∧ ModifyVpcEndpointInput.VpcEndpointId obj' = ModifyVpcEndpointInput.VpcEndpointId obj
  ∧ (TrimSpace (StringValue (ModifyVpcEndpointInput.PolicyDocument obj)) = "" →
     ModifyVpcEndpointInput.PolicyDocument obj' = None)
  ∧ (TrimSpace (StringValue (ModifyVpcEndpointInput.PolicyDocument obj)) ≠ "" →
     ModifyVpcEndpointInput.PolicyDocument obj' = ModifyVpcEndpointInput.PolicyDocument obj).
Proof.
  simpl. split; [| split; [| split; [done | split]]].
  - unfold deltas. simpl.
    repeat (apply List.Forall_cons; [apply nilIfEmpty_absentOrFilled |]).
    apply List.Forall_nil.
  - unfold deltas. simpl.
    repeat (apply Forall2_cons_2; [apply nilIfEmpty_elems |]).
    apply Forall2_nil_2.
  - by intros ->.
  - intros Hkept. by rewrite (proj2 (String.eqb_neq _ _) Hkept).
Qed.

(** X5.  Formatting a request that was formatted changes nothing. *)
Theorem formatModifyVpcEndpointInput_idempotent obj :
  formatModifyVpcEndpointInput TrimSpace (formatModifyVpcEndpointInput TrimSpace obj)
  = formatModifyVpcEndpointInput TrimSpace obj.
Proof.
  unfold formatModifyVpcEndpointInput. simpl. rewrite !nilIfEmpty_idem. f_equal.
  destruct (String.eqb (TrimSpace (StringValue (ModifyVpcEndpointInput.PolicyDocument obj)))
              "") eqn:Hblank; simpl.
  - by destruct (String.eqb (TrimSpace "") "").
  - by rewrite Hblank.
Qed.

End UpdateShapingFacts.

(** X4: the witness.  A request with an empty list to add, a list to
    remove and a policy document of blanks. *)
Lemma formatModifyVpcEndpointInput_shape_witness :
  let obj :=
    ModifyVpcEndpointInput.mk None None (Some []) (Some "  ") None None
      (Sample.strs ["subnet-1"]) (Some "vpce-1") in
  Sample.trimAscii "  " = ""
  ∧ formatModifyVpcEndpointInput Sample.trimAscii obj
    = ModifyVpcEndpointInput.mk None None None None None None
        (Sample.strs ["subnet-1"]) (Some "vpce-1").
Proof.
  cbv zeta. split; [reflexivity |].
  pose proof (formatModifyVpcEndpointInput_shape Sample.trimAscii
                (ModifyVpcEndpointInput.mk None None (Some []) (Some "  ") None None
                   (Sample.strs ["subnet-1"]) (Some "vpce-1")))
    as (_ & _ & _ & Hblank & _).
  specialize (Hblank eq_refl).
  destruct (formatModifyVpcEndpointInput _ _) eqn:Hrun. simpl in Hblank. subst.
  by vm_compute in Hrun.
Defined.

(** ** The drift detection, all four checks *)

Lemma foundInGroups_elem_of declaredSG upstreamSGs :
  foundInGroups declaredSG upstreamSGs = true ↔
  StringValue declaredSG
  ∈ (λ g, StringValue (SecurityGroupIdentifier.GroupId g)) <$> upstreamSGs.
Proof.
  induction upstreamSGs as [|upstreamSG upstreamSGs IH]; simpl.
  - split; [discriminate | intros H; inversion H].
  - rewrite elem_of_cons.
    destruct (String.eqb_spec (StringValue declaredSG)
                (StringValue (SecurityGroupIdentifier.GroupId upstreamSG))).
    + split; auto.
    + rewrite IH. split; [auto | intros [?|?]; [contradiction | assumption]].
Qed.

Lemma sgCompare_subseteq declaredSGs upstreamSGs :
  sgCompare declaredSGs upstreamSGs = true ↔
  ∀ x, x ∈ StringValue <$> declaredSGs →
       x ∈ (λ g, StringValue (SecurityGroupIdentifier.GroupId g)) <$> upstreamSGs.
Proof.
  induction declaredSGs as [|declaredSG declaredSGs IH]; simpl.
  - split; [intros _ x H; inversion H | reflexivity].
  - destruct (foundInGroups declaredSG upstreamSGs) eqn:Hfound.
    + rewrite IH. apply foundInGroups_elem_of in Hfound. split.
      * intros H x. rewrite elem_of_cons. intros [->|Hx]; auto.
      * intros H x Hx. apply H. rewrite elem_of_cons. auto.
    + split; [discriminate |]. intros H.
      assert (foundInGroups declaredSG upstreamSGs = true) as Hin
        by (apply foundInGroups_elem_of, H; rewrite elem_of_cons; auto).
      congruence.
Qed.

Lemma listChecksPass_true_iff cr vpcEndpoint :
  listChecksPass cr vpcEndpoint = true ↔
  listCompareStringPtrIsSame (VpcEndpoint.SubnetIds vpcEndpoint)
    (VPCEndpointParameters.SubnetIDs (VPCEndpoint.ForProvider cr)) = true
  ∧ listCompareStringPtrIsSame (VpcEndpoint.RouteTableIds vpcEndpoint)
      (VPCEndpointParameters.RouteTableIDs (VPCEndpoint.ForProvider cr)) = true
  ∧ length (VpcEndpoint.Groups vpcEndpoint)
    = len (VPCEndpointParameters.SecurityGroupIDs (VPCEndpoint.ForProvider cr))
  ∧ ∀ x, x ∈ declaredGroups cr → x ∈ observedGroups vpcEndpoint.
Proof.
  unfold listChecksPass, declaredGroups, observedGroups, ids. simpl.
  rewrite !andb_true_iff, Nat.eqb_eq, sgCompare_subseteq. tauto.
Qed.

Section DriftDetection.

Variable Compare : string -> string -> jsondiff.Difference.

Lemma policy_verdict_iff cr vpcEndpoint :
  (let difference := Compare (upstreamPolicy vpcEndpoint) (expectedPolicy cr) in
   if String.eqb (declaredPolicy cr) ""
   then jsondiff.eqb difference jsondiff.FullMatch
        || jsondiff.eqb difference jsondiff.SupersetMatch
   else jsondiff.eqb difference jsondiff.FullMatch) = true
  ↔ policyAccepted Compare cr vpcEndpoint.
Proof.
  unfold policyAccepted. simpl.
  destruct (String.eqb_spec (declaredPolicy cr) "") as [Hnone | Hsome].
  - rewrite orb_true_iff, !jsondiff_eqb_eq. tauto.
  - rewrite jsondiff_eqb_eq. tauto.
Qed.

(** X6.  When the number of observed security groups is not the number
    of declared ones, or a declared group is not among the identifiers of
    the observed groups, [isUpToDate] returns false with a nil error. *)
Theorem isUpToDate_security_groups cr vpcEndpoint rest :
  length (VpcEndpoint.Groups vpcEndpoint)
  ≠ len (VPCEndpointParameters.SecurityGroupIDs (VPCEndpoint.ForProvider cr))
  ∨ (∃ x, x ∈ declaredGroups cr ∧ x ∉ observedGroups vpcEndpoint) →
  isUpToDate Compare cr (DescribeVpcEndpointsOutput.mk (vpcEndpoint :: rest))
  = Returned (false, None).
Proof.
  intros Hgroups. apply isUpToDate_lists_fail, not_true_is_false.
  intros (_ & _ & Hcount & Hall)%listChecksPass_true_iff.
  destruct Hgroups as [Hdiffer | (x & Hx & Hno)]; auto.
Qed.

(** X7.  [isUpToDate] returns true when the lists agree and the
    comparison accepts the observed policy.  When no observed subnet and
    no observed route table is repeated, it returns true only then. *)
Theorem isUpToDate_true_iff cr vpcEndpoint rest :
  (listsAgree cr vpcEndpoint → policyAccepted Compare cr vpcEndpoint →
   isUpToDate Compare cr (DescribeVpcEndpointsOutput.mk (vpcEndpoint :: rest))
   = Returned (true, None))
  ∧ (NoDup (ids (VpcEndpoint.SubnetIds vpcEndpoint)) →
     NoDup (ids (VpcEndpoint.RouteTableIds vpcEndpoint)) →
     isUpToDate Compare cr (DescribeVpcEndpointsOutput.mk (vpcEndpoint :: rest))
     = Returned (true, None) →
     listsAgree cr vpcEndpoint ∧ policyAccepted Compare cr vpcEndpoint).
Proof.
  split.
  - intros (Hsubnets & Htables & Hcount & Hgroups) Hpolicy.
    assert (listChecksPass cr vpcEndpoint = true) as Hlists.
    { apply listChecksPass_true_iff.
      auto using listCompare_permutation. }
    rewrite isUpToDate_lists_pass by done.
    by rewrite (proj2 (policy_verdict_iff cr vpcEndpoint) Hpolicy).
  - intros Hsubnets Htables Hrun.
    destruct (listChecksPass cr vpcEndpoint) eqn:Hlists;
      [| by rewrite isUpToDate_lists_fail in Hrun].
    rewrite isUpToDate_lists_pass in Hrun by done.
    injection Hrun as Hpolicy. apply policy_verdict_iff in Hpolicy.
    apply listChecksPass_true_iff in Hlists as (H1 & H2 & Hcount & Hgroups).
    split; [| done]. unfold listsAgree.
    auto using listCompare_true_NoDup.
Qed.

End DriftDetection.

(** X6: the witness.  One group declared, another observed. *)
Lemma isUpToDate_security_groups_witness :
  isUpToDate JsonRef.Compare
    (Sample.resource "vpce-1" ["sg-1"] [] ["subnet-1"] None)
    (Sample.described
       [Sample.endpoint "vpce-1" "available" ["sg-2"] [] ["subnet-1"] defaultPolicy])
  = Returned (false, None).
Proof.
  apply (isUpToDate_security_groups JsonRef.Compare
           (Sample.resource "vpce-1" ["sg-1"] [] ["subnet-1"] None)
           (Sample.endpoint "vpce-1" "available" ["sg-2"] [] ["subnet-1"] defaultPolicy)
           []).
  right. exists "sg-1". split; compute_done.
Defined.

(** X7: the witness.  No security groups, one subnet and no policy
    declared; the same subnet and the default policy observed. *)
Lemma isUpToDate_true_iff_witness :
  isUpToDate JsonRef.Compare
    (Sample.resource "vpce-1" [] [] ["subnet-1"] None)
    (Sample.described
       [Sample.endpoint "vpce-1" "available" [] [] ["subnet-1"] defaultPolicy])
  = Returned (true, None).
Proof.
  apply (proj1 (isUpToDate_true_iff JsonRef.Compare
                  (Sample.resource "vpce-1" [] [] ["subnet-1"] None)
                  (Sample.endpoint "vpce-1" "available" [] [] ["subnet-1"] defaultPolicy)
                  [])).
  - split; [reflexivity |]. split; [reflexivity |]. split; [reflexivity |].
    intros x Hx. inversion Hx.
  - left. by vm_compute.
Defined.

(** ** The status mirror *)

(** X8.  [generateVPCEndpointSDK] panics on an endpoint without creation
    timestamp.  On any other endpoint it returns a mirror with that
    timestamp, the state of the endpoint, and as many DNS entries as the
    endpoint has, each with the name and the hosted zone of the entry at
    its place. *)
Theorem generateVPCEndpointSDK_mirror vpcEndpoint :
  (VpcEndpoint.CreationTimestamp vpcEndpoint = None →
   generateVPCEndpointSDK vpcEndpoint = Panicked)
  ∧ (∀ creationTimestamp,
       VpcEndpoint.CreationTimestamp vpcEndpoint = Some creationTimestamp →
       ∃ sdk,
         generateVPCEndpointSDK vpcEndpoint = Returned sdk
         ∧ VPCEndpoint_SDK.CreationTimestamp sdk = Some creationTimestamp
         ∧ VPCEndpoint_SDK.State sdk = VpcEndpoint.State vpcEndpoint
         ∧ length (VPCEndpoint_SDK.DNSEntries sdk)
           = length (VpcEndpoint.DnsEntries vpcEndpoint)
         ∧ ∀ i dnsEntry,
             VpcEndpoint.DnsEntries vpcEndpoint !! i = Some dnsEntry →
             VPCEndpoint_SDK.DNSEntries sdk !! i
             = Some (DNSEntry.mk (DnsEntry.DnsName dnsEntry)
                       (DnsEntry.HostedZoneId dnsEntry))).
Proof.
  unfold generateVPCEndpointSDK. split.
  - by intros ->.
  - intros creationTimestamp ->. eexists. split; [reflexivity |]. simpl.
    split; [done |]. split; [done |]. split; [apply length_map |].
    intros i dnsEntry Hentry.
    change (map ?f ?l) with (f <$> l). by rewrite list_lookup_fmap, Hentry.
Qed.

(** X8: the witness. *)
Lemma generateVPCEndpointSDK_mirror_witness :
  ∃ sdk,
    generateVPCEndpointSDK
      (Sample.withDns (Sample.endpoint "vpce-1" "available" [] [] [] defaultPolicy)
         ["a.example"; "b.example"])
    = Returned sdk
    ∧ VPCEndpoint_SDK.DNSEntries sdk !! 1 = Some (DNSEntry.mk (Some "b.example") None).
Proof.
  destruct (proj2 (generateVPCEndpointSDK_mirror
                     (Sample.withDns
                        (Sample.endpoint "vpce-1" "available" [] [] [] defaultPolicy)
                        ["a.example"; "b.example"]))
              _ eq_refl)
    as (sdk & Hrun & _ & _ & _ & Hentries).
  exists sdk. split; [exact Hrun |].
  exact (Hentries 1 (DnsEntry.mk (Some "b.example") None) eq_refl).
Defined.

Lemma setStateCondition_frame cr state :
  VPCEndpoint.Annotations (setStateCondition cr state) = VPCEndpoint.Annotations cr
  ∧ VPCEndpoint.ForProvider (setStateCondition cr state) = VPCEndpoint.ForProvider cr
  ∧ VPCEndpoint.AtProvider (setStateCondition cr state) = VPCEndpoint.AtProvider cr.
Proof. rewrite setStateCondition_lifecycle. by destruct (lifecycleCondition state). Qed.

Lemma loadConnectionDetails_flags vpcEndpoint obs :
  managed.ResourceExists (loadConnectionDetails vpcEndpoint obs)
  = managed.ResourceExists obs
  ∧ managed.ResourceUpToDate (loadConnectionDetails vpcEndpoint obs)
    = managed.ResourceUpToDate obs
  ∧ managed.ResourceLateInitialized (loadConnectionDetails vpcEndpoint obs)
    = managed.ResourceLateInitialized obs.
Proof.
  unfold loadConnectionDetails.
  destruct (VpcEndpoint.DnsEntries vpcEndpoint) as [|dnsEntry others]; [done |].
  by destruct (negb _).
Qed.

(** X9.  When [postObserve] returns with a nil error, the status of the
    resource holds the mirror of the first endpoint; the annotations,
    with the external name, and the declared parameters are the ones the
    resource had; and the three flags of the observation are the ones it
    came in with. *)
Theorem postObserve_frame cr resp obs cr' obs' :
  postObserve cr resp obs None = Returned (cr', obs', None) →
  (∃ vpcEndpoint rest sdk,
     DescribeVpcEndpointsOutput.VpcEndpoints resp = vpcEndpoint :: rest
     ∧ generateVPCEndpointSDK vpcEndpoint = Returned sdk
     ∧ VPCEndpoint.AtProvider cr' = Some sdk)
  ∧ VPCEndpoint.Annotations cr' = VPCEndpoint.Annotations cr
  ∧ meta.GetExternalName cr' = meta.GetExternalName cr
  ∧ VPCEndpoint.ForProvider cr' = VPCEndpoint.ForProvider cr
  ∧ managed.ResourceExists obs' = managed.ResourceExists obs
  ∧ managed.ResourceUpToDate obs' = managed.ResourceUpToDate obs
  ∧ managed.ResourceLateInitialized obs' = managed.ResourceLateInitialized obs.
Proof.
  unfold postObserve.
  destruct (DescribeVpcEndpointsOutput.VpcEndpoints resp) as [|vpcEndpoint rest];
    [discriminate |]. simpl.
  destruct (generateVPCEndpointSDK vpcEndpoint) as [sdk|] eqn:Hsdk; [| discriminate].
  simpl. intros [= <- <-].
  destruct (setStateCondition_frame (VPCEndpoint.setAtProvider cr sdk)
              (StringValue (VpcEndpoint.State vpcEndpoint))) as (Hann & Hfp & Hat).
  destruct (loadConnectionDetails_flags vpcEndpoint obs) as (He & Hu & Hl).
  split; [by exists vpcEndpoint, rest, sdk |].
  unfold meta.GetExternalName. rewrite Hann, Hfp. done.
Qed.

(** X9: the witness. *)
Lemma postObserve_frame_witness :
  let cr := Sample.resource "vpce-1" [] [] ["subnet-1"] None in
  ∃ cr' obs',
    postObserve cr
      (Sample.described
         [Sample.endpoint "vpce-1" "available" [] [] ["subnet-1"] defaultPolicy])
      (managed.mkExternalObservation true true false ∅) None
    = Returned (cr', obs', None)
    ∧ meta.GetExternalName cr' = "vpce-1"
    ∧ managed.ResourceUpToDate obs' = true.
Proof.
  cbv zeta. eexists _, _. split; [reflexivity |].
  destruct (postObserve_frame
              (Sample.resource "vpce-1" [] [] ["subnet-1"] None)
              (Sample.described
                 [Sample.endpoint "vpce-1" "available" [] [] ["subnet-1"] defaultPolicy])
              (managed.mkExternalObservation true true false ∅) _ _ eq_refl)
    as (_ & _ & Hname & _ & _ & Hflag & _).
  split; [exact Hname | exact Hflag].
Defined.

Lemma setCondition_idem c conds :
  xpv1.setCondition c (xpv1.setCondition c conds) = xpv1.setCondition c conds.
Proof.
  unfold xpv1.setCondition at 2 3.
  destruct (existsb (λ c', xpv1.sameType c' c) conds) eqn:Hexists.
  - unfold xpv1.setCondition.
    assert (existsb (λ c', xpv1.sameType c' c)
              (map (λ c', if xpv1.sameType c' c then c else c') conds) = true) as ->.
    { apply existsb_exists in Hexists as (c' & Hin & Hsame).
      apply existsb_exists. exists c. split.
      - apply in_map_iff. exists c'. by rewrite Hsame.
      - unfold xpv1.sameType. apply String.eqb_refl. }
    rewrite map_map. apply map_ext. intros c'.
    destruct (xpv1.sameType c' c) eqn:Hsame; [| by rewrite Hsame].
    unfold xpv1.sameType. by rewrite String.eqb_refl.
  - unfold xpv1.setCondition.
    rewrite existsb_app. simpl. unfold xpv1.sameType at 2.
    rewrite String.eqb_refl, orb_true_r, map_app. simpl.
    unfold xpv1.sameType at 2. rewrite String.eqb_refl. f_equal.
    rewrite <- (map_id conds) at 2. apply map_ext_in. intros c' Hin.
    destruct (xpv1.sameType c' c) eqn:Hsame; [| done].
    assert (existsb (λ c', xpv1.sameType c' c) conds = true) as Hyes
      by (apply existsb_exists; eauto).
    congruence.
Qed.

Lemma setStateCondition_idem cr state :
  setStateCondition (setStateCondition cr state) state = setStateCondition cr state.
Proof.
  rewrite !setStateCondition_lifecycle.
  destruct (lifecycleCondition state) as [c|]; [| done].
  unfold VPCEndpoint.SetConditions. simpl. by rewrite setCondition_idem.
Qed.

Lemma loadConnectionDetails_idem vpcEndpoint obs :
  loadConnectionDetails vpcEndpoint (loadConnectionDetails vpcEndpoint obs)
  = loadConnectionDetails vpcEndpoint obs.
Proof.
  unfold loadConnectionDetails.
  destruct (VpcEndpoint.DnsEntries vpcEndpoint) as [|dnsEntry others]; [done |].
  by destruct (negb _).
Qed.

(** X10.  Observing the same response once more changes nothing: when
    [postObserve] returned a resource and an observation, it returns the
    same two when it is given them with the response again. *)
Theorem postObserve_idempotent cr resp obs cr' obs' :
  postObserve cr resp obs None = Returned (cr', obs', None) →
  postObserve cr' resp obs' None = Returned (cr', obs', None).
Proof.
  unfold postObserve.
  destruct (DescribeVpcEndpointsOutput.VpcEndpoints resp) as [|vpcEndpoint rest];
    [discriminate |]. simpl.
  destruct (generateVPCEndpointSDK vpcEndpoint) as [sdk|] eqn:Hsdk; [| discriminate].
  simpl. intros [= <- <-]. rewrite loadConnectionDetails_idem. do 3 f_equal.
  set (state := StringValue (VpcEndpoint.State vpcEndpoint)).
  destruct (setStateCondition_frame (VPCEndpoint.setAtProvider cr sdk) state)
    as (Hann & Hfp & _).
  rewrite <- (setStateCondition_idem (VPCEndpoint.setAtProvider cr sdk) state) at 2.
  f_equal. rewrite !setStateCondition_lifecycle.
  by destruct (lifecycleCondition state).
Qed.

(** X10: the witness. *)
Lemma postObserve_idempotent_witness :
  let cr := Sample.resource "vpce-1" [] [] ["subnet-1"] None in
  let resp :=
    Sample.described
      [Sample.withDns
         (Sample.endpoint "vpce-1" "deleting" [] [] ["subnet-1"] defaultPolicy)
         ["a.example"]] in
  ∃ cr' obs',
    postObserve cr resp managed.zeroObservation None = Returned (cr', obs', None)
    ∧ postObserve cr' resp obs' None = Returned (cr', obs', None).
Proof.
  cbv zeta. eexists _, _. split; [reflexivity |].
  apply (postObserve_idempotent (Sample.resource "vpce-1" [] [] ["subnet-1"] None)
           _ managed.zeroObservation).
  reflexivity.
Defined.

(** ** Conditions of the resource *)

Lemma find_snoc {A} (f : A → bool) (l : list A) (x : A) :
  List.find f (l ++ [x])
  = match List.find f l with
    | Some y => Some y
    | None => if f x then Some x else None
    end.
Proof.
  induction l as [|y l IH]; simpl; [done |]. by destruct (f y).
Qed.

Lemma GetCondition_setCondition_other c conds ct :
  ct ≠ xpv1.Type_ c →
  xpv1.GetCondition ct (xpv1.setCondition c conds) = xpv1.GetCondition ct conds.
Proof.
  intros Hother. unfold xpv1.GetCondition, xpv1.setCondition.
  assert (String.eqb (xpv1.Type_ c) ct = false) as Hne
    by (apply String.eqb_neq; congruence).
  assert (∀ l, List.find (λ c', String.eqb (xpv1.Type_ c') ct)
                 (map (λ c', if xpv1.sameType c' c then c else c') l)
               = List.find (λ c', String.eqb (xpv1.Type_ c') ct) l) as Hmap.
  { induction l as [|c' l IH]; [done |]. simpl.
    destruct (xpv1.sameType c' c) eqn:Hsame.
    - apply String.eqb_eq in Hsame. rewrite Hsame, Hne. exact IH.
    - destruct (String.eqb (xpv1.Type_ c') ct); [done | exact IH]. }
  destruct (existsb _ conds); [by rewrite Hmap |].
  rewrite find_snoc. destruct (List.find _ conds); [done |].
  by rewrite Hne.
Qed.

Lemma setCondition_exclusive c conds c' :
  c' ∈ xpv1.setCondition c conds → xpv1.Type_ c' = xpv1.Type_ c → c' = c.
Proof.
  unfold xpv1.setCondition. intros Hin Hsame.
  destruct (existsb _ conds) eqn:Hexists.
  - apply list_elem_of_In, in_map_iff in Hin as (c0 & Hc0 & _).
    unfold xpv1.sameType in Hc0.
    destruct (String.eqb_spec (xpv1.Type_ c0) (xpv1.Type_ c)); congruence.
  - apply elem_of_app in Hin as [Hin | ->%list_elem_of_singleton]; [| done].
    assert (existsb (λ c0, xpv1.sameType c0 c) conds = true) as Hyes.
    { apply existsb_exists. exists c'. split; [by apply list_elem_of_In |].
      unfold xpv1.sameType. by apply String.eqb_eq. }
    congruence.
Qed.

(** X11.  After [SetConditions] with one condition, [GetCondition] of the
    type of that condition returns it, [GetCondition] of any other type
    returns what it returned before, no other condition of that type is
    left on the resource, and setting the condition again changes
    nothing. *)
Theorem SetConditions_GetCondition mg c :
  let mg' := VPCEndpoint.SetConditions mg [c] in
  VPCEndpoint.GetCondition mg' (xpv1.Type_ c) = c
  ∧ (∀ ct, ct ≠ xpv1.Type_ c →
           VPCEndpoint.GetCondition mg' ct = VPCEndpoint.GetCondition mg ct)
  ∧ (∀ c', c' ∈ VPCEndpoint.Conditions mg' → xpv1.Type_ c' = xpv1.Type_ c → c' = c)
  ∧ VPCEndpoint.SetConditions mg' [c] = mg'.
Proof.
  unfold VPCEndpoint.SetConditions, VPCEndpoint.GetCondition. simpl.
  split; [apply GetCondition_SetConditions |].
  split; [intros ct Hother; by apply GetCondition_setCondition_other |].
  split; [apply setCondition_exclusive |].
  by rewrite setCondition_idem.
Qed.

(** X11: the witness.  A resource that is being created and is synced
    becomes available: one Ready condition, the Synced one untouched. *)
Lemma SetConditions_GetCondition_witness :
  let synced := xpv1.mkCondition xpv1.TypeSynced xpv1.ConditionTrue "ReconcileSuccess" "" in
  let mg :=
    VPCEndpoint.SetConditions (Sample.resource "vpce-1" [] [] [] None) [synced] in
  VPCEndpoint.Conditions (VPCEndpoint.SetConditions mg [xpv1.Available])
  = [xpv1.Available; synced]
  ∧ VPCEndpoint.GetCondition (VPCEndpoint.SetConditions mg [xpv1.Available])
      xpv1.TypeSynced = synced.
Proof.
  cbv zeta. split; [reflexivity |].
  rewrite (proj1 (proj2 (SetConditions_GetCondition _ xpv1.Available))
             xpv1.TypeSynced) by discriminate.
  reflexivity.
Defined.

(** ** From the described endpoints to the observation *)

(** X12.  Filtering a filtered response changes nothing. *)
Theorem filterList_idempotent cr obj :
  filterList cr (filterList cr obj) = filterList cr obj.
Proof.
  unfold filterList. cbn [DescribeVpcEndpointsOutput.VpcEndpoints]. f_equal.
  destruct (first_addressed cr (DescribeVpcEndpointsOutput.VpcEndpoints obj))
    as [(before & vpcEndpoint & after & Hsplit & Hbefore & Hmatch) | Hnone].
  - rewrite Hsplit, (filterLoop_first cr before vpcEndpoint after []) by done.
    by apply (filterLoop_first cr [] vpcEndpoint [] []).
  - by rewrite (filterLoop_none cr _ [] Hnone).
Qed.

(** X13.  What the hooks make of a described response depends on the
    first endpoint that carries the external name of the resource only:
    after [filterList], [postObserve] and [isUpToDate] return what they
    return on the response that holds that endpoint alone. *)
Theorem observation_of_addressed_endpoint Compare cr before vpcEndpoint after obs :
  Forall (λ e, ¬ addressedBy cr e) before →
  addressedBy cr vpcEndpoint →
  let described := DescribeVpcEndpointsOutput.mk (before ++ vpcEndpoint :: after) in
  let alone := DescribeVpcEndpointsOutput.mk [vpcEndpoint] in
  postObserve cr (filterList cr described) obs None = postObserve cr alone obs None
  ∧ isUpToDate Compare cr (filterList cr described) = isUpToDate Compare cr alone.
Proof.
  intros Hbefore Hmatch. unfold filterList.
  cbn [DescribeVpcEndpointsOutput.VpcEndpoints].
  by rewrite (filterLoop_first cr before vpcEndpoint after []) by done.
Qed.

(** X13: the witness.  The second endpoint described carries the
    external name; the status mirrors its state. *)
Lemma observation_of_addressed_endpoint_witness :
  let cr := Sample.resource "vpce-1" [] [] [] None in
  let described :=
    Sample.described
      [Sample.endpoint "vpce-0" "deleted" [] [] [] defaultPolicy;
       Sample.endpoint "vpce-1" "available" [] [] [] defaultPolicy] in
  ∃ cr' obs',
    postObserve cr (filterList cr described) managed.zeroObservation None
    = Returned (cr', obs', None)
    ∧ VPCEndpoint.GetCondition cr' xpv1.TypeReady = xpv1.Available.
Proof.
  cbv zeta. eexists _, _. split.
  - etransitivity; [| reflexivity].
    exact (proj1 (observation_of_addressed_endpoint JsonRef.Compare
                    (Sample.resource "vpce-1" [] [] [] None)
                    [Sample.endpoint "vpce-0" "deleted" [] [] [] defaultPolicy]
                    (Sample.endpoint "vpce-1" "available" [] [] [] defaultPolicy)
                    [] managed.zeroObservation
                    ltac:(repeat constructor; unfold addressedBy; by vm_compute)
                    eq_refl)).
  - reflexivity.
Defined.

(** ** From creation to observation and deletion *)

Lemma GetExternalName_SetExternalName cr name :
  meta.GetExternalName (meta.SetExternalName cr name) = name.
Proof.
  unfold meta.GetExternalName, meta.SetExternalName. simpl.
  by rewrite lookup_insert_eq.
Qed.

(** X14.  [postCreate] returns the error it was given, in every case; it
    leaves the declared parameters, the status and every annotation other
    than the external name as they were; and with an error the
    connection details of the creation are empty. *)
Theorem postCreate_frame cr obj cre err :
  ∃ cr' cre',
    postCreate cr obj cre err = (cr', cre', err)
    ∧ VPCEndpoint.ForProvider cr' = VPCEndpoint.ForProvider cr
    ∧ VPCEndpoint.AtProvider cr' = VPCEndpoint.AtProvider cr
    ∧ VPCEndpoint.Conditions cr' = VPCEndpoint.Conditions cr
    ∧ (∀ key, key ≠ meta.AnnotationKeyExternalName →
              VPCEndpoint.Annotations cr' !! key = VPCEndpoint.Annotations cr !! key)
    ∧ (err ≠ None → cr' = cr ∧ cre' = managed.zeroCreation).
Proof.
  unfold postCreate.
  destruct err as [e|], (CreateVpcEndpointOutput.VpcEndpoint obj) as [vpcEndpoint|];
    eexists _, _; (split; [reflexivity |]); repeat split; try done.
  intros key Hother. simpl. by rewrite lookup_insert_ne.
Qed.

(** X14: the witness.  The resource carries a second annotation. *)
Lemma postCreate_frame_witness :
  let cr :=
    VPCEndpoint.setAnnotations (Sample.resource "vpc-endpoint-a" [] [] ["subnet-1"] None)
      {[ meta.AnnotationKeyExternalName := "vpc-endpoint-a";
         "crossplane.io/paused" := "false" ]} in
  let created :=
    CreateVpcEndpointOutput.mk
      (Some (Sample.endpoint "vpce-1" "pending" [] [] ["subnet-1"] defaultPolicy)) in
  ∃ cr' cre',
    postCreate cr created managed.zeroCreation None = (cr', cre', None)
    ∧ VPCEndpoint.Annotations cr' !! "crossplane.io/paused" = Some "false".
Proof.
  cbv zeta.
  destruct (postCreate_frame
              (VPCEndpoint.setAnnotations
                 (Sample.resource "vpc-endpoint-a" [] [] ["subnet-1"] None)
                 {[ meta.AnnotationKeyExternalName := "vpc-endpoint-a";
                    "crossplane.io/paused" := "false" ]})
              (CreateVpcEndpointOutput.mk
                 (Some (Sample.endpoint "vpce-1" "pending" [] [] ["subnet-1"]
                          defaultPolicy)))
              managed.zeroCreation None)
    as (cr' & cre' & Hrun & _ & _ & _ & Hkept & _).
  exists cr', cre'. split; [exact Hrun |].
  rewrite (Hkept "crossplane.io/paused") by discriminate. reflexivity.
Defined.

(** X15.  After [postCreate] took the identifier of the created
    endpoint, [filterList] finds that endpoint among the described ones:
    it returns the first endpoint with that identifier, and the endpoint
    itself when no endpoint before it has the identifier. *)
Theorem created_endpoint_is_found cr obj cre created before after :
  CreateVpcEndpointOutput.VpcEndpoint obj = Some created →
  Forall (λ e, StringValue (VpcEndpoint.VpcEndpointId e)
               ≠ StringValue (VpcEndpoint.VpcEndpointId created)) before →
  ∃ cr' cre',
    postCreate cr obj cre None = (cr', cre', None)
    ∧ filterList cr' (DescribeVpcEndpointsOutput.mk (before ++ created :: after))
      = DescribeVpcEndpointsOutput.mk [created].
Proof.
  intros Hcreated Hbefore. unfold postCreate. rewrite Hcreated.
  eexists _, _. split; [reflexivity |]. unfold filterList.
  cbn [DescribeVpcEndpointsOutput.VpcEndpoints]. f_equal.
  apply (filterLoop_first _ before created after []).
  - eapply Forall_impl; [exact Hbefore |]. intros e Hother.
    unfold addressedBy. by rewrite GetExternalName_SetExternalName.
  - unfold addressedBy. by rewrite GetExternalName_SetExternalName.
Qed.

(** X15: the witness. *)
Lemma created_endpoint_is_found_witness :
  let created := Sample.endpoint "vpce-1" "pending" [] [] ["subnet-1"] defaultPolicy in
  let other := Sample.endpoint "vpce-0" "available" [] [] [] defaultPolicy in
  ∃ cr' cre',
    postCreate (Sample.resource "vpc-endpoint-a" [] [] ["subnet-1"] None)
      (CreateVpcEndpointOutput.mk (Some created)) managed.zeroCreation None
    = (cr', cre', None)
    ∧ filterList cr' (Sample.described [other; created]) = Sample.described [created].
Proof.
  cbv zeta.
  exact (created_endpoint_is_found
           (Sample.resource "vpc-endpoint-a" [] [] ["subnet-1"] None)
           (CreateVpcEndpointOutput.mk
              (Some (Sample.endpoint "vpce-1" "pending" [] [] ["subnet-1"] defaultPolicy)))
           managed.zeroCreation
           (Sample.endpoint "vpce-1" "pending" [] [] ["subnet-1"] defaultPolicy)
           [Sample.endpoint "vpce-0" "available" [] [] [] defaultPolicy] []
           eq_refl
           ltac:(repeat constructor; by vm_compute)).
Defined.

Section DeleteFacts.

Variable Client : Type.
Variable DeleteVpcEndpoints :
  DeleteVpcEndpointsInput.t -> Client -> Client * option error.
Variable errUnexpectedObject : string.

(** X16.  [delete] on a resource of another kind returns the unexpected
    object error and leaves the remote side as it is.  On the resource
    that [postCreate] bound to a created endpoint it makes the one call
    that names the identifier of that endpoint and nothing else, and
    returns what the call returns. *)
Theorem delete_addresses_created_endpoint cr obj cre created client :
  delete Client DeleteVpcEndpoints errUnexpectedObject ManagedOther client
  = (client, Some errUnexpectedObject)
  ∧ (CreateVpcEndpointOutput.VpcEndpoint obj = Some created →
     ∃ cr' cre',
       postCreate cr obj cre None = (cr', cre', None)
       ∧ delete Client DeleteVpcEndpoints errUnexpectedObject
           (ManagedVPCEndpoint cr') client
         = DeleteVpcEndpoints
             (DeleteVpcEndpointsInput.mk
                (Some [Some (StringValue (VpcEndpoint.VpcEndpointId created))]))
             client).
Proof.
  split; [reflexivity |]. intros Hcreated. unfold postCreate. rewrite Hcreated.
  eexists _, _. split; [reflexivity |]. unfold delete.
  by rewrite GetExternalName_SetExternalName.
Qed.

End DeleteFacts.

(** X16: the witness, on a remote side that records the calls. *)
Lemma delete_addresses_created_endpoint_witness :
  ∃ cr' cre',
    postCreate (Sample.resource "vpc-endpoint-a" [] [] ["subnet-1"] None)
      (CreateVpcEndpointOutput.mk
         (Some (Sample.endpoint "vpce-1" "pending" [] [] ["subnet-1"] defaultPolicy)))
      managed.zeroCreation None
    = (cr', cre', None)
    ∧ delete _ Sample.recordingDelete "managed resource is not an VPCEndpoint resource"
        (ManagedVPCEndpoint cr') []
      = ([["vpce-1"]], None).
Proof.
  destruct (proj2 (delete_addresses_created_endpoint _ Sample.recordingDelete
                     "managed resource is not an VPCEndpoint resource"
                     (Sample.resource "vpc-endpoint-a" [] [] ["subnet-1"] None)
                     (CreateVpcEndpointOutput.mk
                        (Some (Sample.endpoint "vpce-1" "pending" [] [] ["subnet-1"]
                                 defaultPolicy)))
                     managed.zeroCreation
                     (Sample.endpoint "vpce-1" "pending" [] [] ["subnet-1"] defaultPolicy)
                     [])
              eq_refl)
    as (cr' & cre' & Hrun & Hdelete).
  exists cr', cre'. split; [exact Hrun |]. rewrite Hdelete. by vm_compute.
Defined.

(** ** The two revisions of [postCreate] *)

(** X17.  The [postCreate] of the earlier revision returns exactly when
    it is given an error or a response with an endpoint, and then it
    returns what the later revision returns; given neither, it panics,
    where the later revision returns the resource unchanged. *)
Theorem SetupGo_postCreate_defined cr obj cre err :
  ((∃ result, SetupGo.postCreate cr obj cre err = Returned result) ↔
   err ≠ None ∨ CreateVpcEndpointOutput.VpcEndpoint obj ≠ None)
  ∧ (∀ result,
       SetupGo.postCreate cr obj cre err = Returned result →
       result = postCreate cr obj cre err)
  ∧ (err = None → CreateVpcEndpointOutput.VpcEndpoint obj = None →
     SetupGo.postCreate cr obj cre err = Panicked
     ∧ postCreate cr obj cre err = (cr, managed.zeroCreation, None)).
Proof.
  unfold SetupGo.postCreate, postCreate.
  destruct err as [e|], (CreateVpcEndpointOutput.VpcEndpoint obj) as [vpcEndpoint|];
    simpl; (split; [split | split]).
  all: try (intros [result Hrun]; try discriminate Hrun; first [by left | by right]).
  all: try (intros _; eexists; reflexivity).
  all: try (intros result [= <-]; reflexivity).
  all: try (intros He Hp; first [discriminate He | discriminate Hp | done]).
  all: try (intros result Hrun; discriminate Hrun).
  intros [Hno | Hno]; by destruct Hno.
Qed.

(** X17: the witness. *)
Lemma SetupGo_postCreate_defined_witness :
  SetupGo.postCreate (Sample.resource "vpc-endpoint-a" [] [] [] None)
    (CreateVpcEndpointOutput.mk None) managed.zeroCreation None
  = Panicked.
Proof.
  apply (proj2 (proj2 (SetupGo_postCreate_defined _ _ _ _))); reflexivity.
Defined.
